(** * NovusDB Python driver: the connection wrapper over the native ABI

    Shallow embedding of [drivers/python/novusdb.py], class [NovusDB].

    The driver is a thin object around one integer attribute, [_handle], and a
    loaded shared library, [_lib].  Every method is one or two foreign calls
    followed by a decoding step.  The embedding keeps that shape:

    - Python values are an inductive type [value]; a [str] is its sequence of
      code points and [bytes] a list of bytes, so that [str.encode] and
      [bytes.decode] are the real UTF-8 functions;
    - exceptions are a type [exn]; a method is a state transformer that
      returns either a value or a raised exception, together with the state
      reached at that point (Python keeps the mutations made before a raise);
    - the shared library is a record of functions over an engine state [W];
      the state also carries the log of the foreign calls made so far, which
      is how "makes no call" and "makes exactly one call" are stated;
    - [json.loads] is library code and is a parameter of the development: a
      function from the text to the value or to the exception raised.  The
      theorems hold for any decoder.  [json_loads_ref] is a reference
      decoder used to run concrete scenarios.

    The driver raises [RuntimeError] for a failed open, a failed statement
    and a failed insert; the names [OpenError], [QueryError] and
    [InsertError] of the specification abbreviate these.  It defines no other
    error of its own.

    The methods are first given on an object that has its handle
    ([State]).  The search for the library, the whole constructor, the
    object whose constructor raised before the handle was stored
    ([Instance]) and the command line come after; the platform, the file
    system, the loader and standard output are parameters there. *)

From Stdlib Require Import ZArith NArith List Bool Lia.
From Stdlib Require Import Strings.Ascii Strings.String Strings.Byte.
Import ListNotations.
Open Scope Z_scope.

#[local] Set Warnings "-register-all".

(** ** Text and bytes *)

(** A Python [str]: the sequence of its code points. *)
Definition str := list N.

(** A Python [bytes] object. *)
Definition bytes := list byte.

(** An ASCII literal as a [str]. *)
Definition py (s : string) : str := map N_of_ascii (list_ascii_of_string s).
Arguments py : simpl never.

(** An ASCII literal as [bytes]; an apostrophe in the literal stands for the
    double quote, which keeps JSON texts readable. *)
Definition dq (a : ascii) : ascii :=
  if Ascii.eqb a "'"%char then ascii_of_N 34 else a.

Definition lit (s : string) : bytes :=
  map (fun a => byte_of_ascii (dq a)) (list_ascii_of_string s).

(** The same literal as a [str]. *)
Definition pyq (s : string) : str :=
  map (fun a => N_of_ascii (dq a)) (list_ascii_of_string s).

Fixpoint str_eqb (s t : str) : bool :=
  match s, t with
  | [], [] => true
  | a :: s', b :: t' => N.eqb a b && str_eqb s' t'
  | _, _ => false
  end.

Fixpoint is_prefix (p s : str) : bool :=
  match p, s with
  | [], _ => true
  | a :: p', b :: s' => N.eqb a b && is_prefix p' s'
  | _ :: _, [] => false
  end.

(** [p in s] for two strings: [p] occurs as a contiguous run of [s]. *)
Fixpoint is_substring (p s : str) : bool :=
  is_prefix p s ||
  match s with
  | [] => false
  | _ :: s' => is_substring p s'
  end.

(** *** UTF-8, as [str.encode("utf-8")] and [bytes.decode("utf-8")] do it

    Both are strict: surrogates are not encodable, and overlong forms,
    surrogates and values above U+10FFFF are not decodable. *)

Definition byte_of (n : N) : byte :=
  match Byte.of_N n with Some b => b | None => x00 end.

Definition is_surrogate (c : N) : bool :=
  (N.leb 0xD800 c && N.leb c 0xDFFF)%N.

Definition encode_cp (c : N) : option bytes :=
  (if c <? 0x80 then Some [byte_of c]
   else if c <? 0x800 then
     Some [byte_of (0xC0 + c / 64); byte_of (0x80 + c mod 64)]
   else if c <? 0x10000 then
     if is_surrogate c then None
     else Some [byte_of (0xE0 + c / 4096);
                byte_of (0x80 + (c / 64) mod 64);
                byte_of (0x80 + c mod 64)]
   else if c <? 0x110000 then
     Some [byte_of (0xF0 + c / 262144);
           byte_of (0x80 + (c / 4096) mod 64);
           byte_of (0x80 + (c / 64) mod 64);
           byte_of (0x80 + c mod 64)]
   else None)%N.

Fixpoint encode_utf8 (s : str) : option bytes :=
  match s with
  | [] => Some []
  | c :: s' =>
      match encode_cp c, encode_utf8 s' with
      | Some b, Some bs => Some (b ++ bs)
      | _, _ => None
      end
  end.

(** The payload of a continuation byte [10xxxxxx]. *)
Definition continuation (b : byte) : option N :=
  (let n := Byte.to_N b in
   if (0x80 <=? n) && (n <=? 0xBF) then Some (n - 0x80) else None)%N.

Fixpoint decode_utf8 (bs : bytes) : option str :=
  match bs with
  | [] => Some []
  | b0 :: t0 =>
      let n0 := Byte.to_N b0 in
      (if n0 <? 0x80 then option_map (cons n0) (decode_utf8 t0)
       else if n0 <? 0xC2 then None
       else if n0 <? 0xE0 then
         match t0 with
         | b1 :: t1 =>
             match continuation b1 with
             | Some c1 =>
                 option_map (cons ((n0 - 0xC0) * 64 + c1)) (decode_utf8 t1)
             | None => None
             end
         | _ => None
         end
       else if n0 <? 0xF0 then
         match t0 with
         | b1 :: b2 :: t2 =>
             match continuation b1, continuation b2 with
             | Some c1, Some c2 =>
                 let c := (n0 - 0xE0) * 4096 + c1 * 64 + c2 in
                 if (c <? 0x800) || is_surrogate c then None
                 else option_map (cons c) (decode_utf8 t2)
             | _, _ => None
             end
         | _ => None
         end
       else if n0 <? 0xF5 then
         match t0 with
         | b1 :: b2 :: b3 :: t3 =>
             match continuation b1, continuation b2, continuation b3 with
             | Some c1, Some c2, Some c3 =>
                 let c := (n0 - 0xF0) * 262144 + c1 * 4096 + c2 * 64 + c3 in
                 if (c <? 0x10000) || (0x10FFFF <? c) then None
                 else option_map (cons c) (decode_utf8 t3)
             | _, _, _ => None
             end
         | _ => None
         end
       else None)%N
  end.

Arguments encode_utf8 : simpl never.
Arguments decode_utf8 : simpl never.

(** ** Python values and exceptions *)

(** A float as [json.loads] reads it: the decimal of the literal is kept
    exactly (sign, digits, power of ten); the rounding to binary64 is not
    modelled.  [NaN], [Infinity] and [-Infinity] are the three literals Python
    accepts beyond the JSON grammar. *)
Inductive pyfloat :=
| FDec (negative : bool) (digits : N) (exp10 : Z)
| FInf (negative : bool)
| FNaN.

(** The values [json.loads] produces.  A [dict] is the list of its items in
    insertion order. *)
Inductive value :=
| VNone
| VBool (b : bool)
| VInt (z : Z)
| VFloat (f : pyfloat)
| VStr (s : str)
| VList (l : list value)
| VDict (d : list (str * value)).

(** [RuntimeError] is the class itself, as the driver raises it.
    [RecursionError], which Python derives from it, and [ValueError] are what
    [json.loads] raises on text nested too deeply and on an integer of too
    many digits; [JSONDecodeError] is what it raises on malformed text. *)
Inductive exn :=
| RuntimeError (arg : value)
| UnicodeEncodeError
| UnicodeDecodeError
| JSONDecodeError
| AttributeError
| TypeError
| KeyError (key : str)
| ValueError
| RecursionError.

Inductive result (A : Type) :=
| Ok (a : A)
| Raise (e : exn).
Arguments Ok {A} a.
Arguments Raise {A} e.

Fixpoint dict_get (k : str) (d : list (str * value)) : option value :=
  match d with
  | [] => None
  | (k', v) :: d' => if str_eqb k k' then Some v else dict_get k d'
  end.

Definition dict_has (k : str) (d : list (str * value)) : bool :=
  match dict_get k d with Some _ => true | None => false end.

(** [d[k] = v]: an existing key keeps its position. *)
Fixpoint dict_set (k : str) (v : value) (d : list (str * value))
  : list (str * value) :=
  match d with
  | [] => [(k, v)]
  | (k', v') :: d' =>
      if str_eqb k k' then (k, v) :: d' else (k', v') :: dict_set k v d'
  end.

(** [k == v] for a string [k]. *)
Definition str_equals (k : str) (v : value) : bool :=
  match v with
  | VStr s => str_eqb k s
  | _ => false
  end.

(** [k in v] for a string [k]: key membership on a dict, element membership
    on a list, substring on a string, [TypeError] on anything else. *)
Definition py_in (k : str) (v : value) : result bool :=
  match v with
  | VDict d => Ok (dict_has k d)
  | VList l => Ok (existsb (str_equals k) l)
  | VStr s => Ok (is_substring k s)
  | _ => Raise TypeError
  end.

(** [v[k]] for a string [k]: only a dict can be indexed by a string. *)
Definition py_getitem (v : value) (k : str) : result value :=
  match v with
  | VDict d =>
      match dict_get k d with
      | Some x => Ok x
      | None => Raise (KeyError k)
      end
  | _ => Raise TypeError
  end.

(** ** The ABI binding (lines 76-103 of the driver) *)

(** Result conversions of [ctypes]: [restype = c_longlong] and
    [restype = c_int] read the returned word as a signed integer of that
    width. *)
Definition c_longlong (z : Z) : Z := (z + 2 ^ 63) mod 2 ^ 64 - 2 ^ 63.
Definition c_int (z : Z) : Z := (z + 2 ^ 31) mod 2 ^ 32 - 2 ^ 31.

(** The foreign functions over an engine state [W], as [ctypes] presents
    them: each takes the argument objects Python passes.  A [c_char_p]
    argument is a [bytes] object, of which the engine reads what precedes
    the first zero byte; a [c_char_p] result is [None] for the null pointer
    and the bytes before the terminator otherwise.  [NovusDB_free] is
    declared by the driver and never called. *)
Record Lib (W : Type) := {
  NovusDB_open : bytes -> W -> Z * W;
  NovusDB_close : Z -> W -> Z * W;
  NovusDB_exec : Z -> bytes -> W -> option bytes * W;
  NovusDB_insert_json : Z -> bytes -> bytes -> W -> Z * W;
  NovusDB_collections : Z -> W -> option bytes * W;
  NovusDB_error : Z -> W -> option bytes * W;
  NovusDB_dump : Z -> W -> option bytes * W;
  NovusDB_free : bytes -> W -> W
}.
Arguments NovusDB_open {W}.
Arguments NovusDB_close {W}.
Arguments NovusDB_exec {W}.
Arguments NovusDB_insert_json {W}.
Arguments NovusDB_collections {W}.
Arguments NovusDB_error {W}.
Arguments NovusDB_dump {W}.
Arguments NovusDB_free {W}.

(** One entry of the call log: which foreign function, with which argument
    objects. *)
Inductive Call :=
| CallOpen (path : bytes)
| CallClose (h : Z)
| CallExec (h : Z) (sql : bytes)
| CallInsertJson (h : Z) (collection doc : bytes)
| CallCollections (h : Z)
| CallError (h : Z)
| CallDump (h : Z).

Definition is_close (c : Call) : bool :=
  match c with CallClose _ => true | _ => false end.

(** The errors of the specification's taxonomy that the driver raises; each
    is a [RuntimeError], told apart by where it is raised and what it
    carries. *)
Definition OpenError (path : str) : exn :=
  RuntimeError (VStr (py "Failed to open database: " ++ path)).
Definition QueryError (message : value) : exn := RuntimeError message.
Definition InsertError (message : str) : exn := RuntimeError (VStr message).

(** ** The connection object and its methods *)

Section Driver.

Context {W : Type}.
Variable lib : Lib W.
Variable json_loads : str -> result value.

(** The state a method runs in once the object has its handle: the
    attribute [self._handle], the foreign calls made so far (oldest first)
    and the engine behind the boundary.  The attribute is assigned by line
    106 of [__init__], which reads nothing of the object before.  An object
    whose constructor raised before that line has no such attribute; the
    caller never gets hold of it, but the interpreter still finalizes it:
    such objects are the [Unassigned] instances further down. *)
Record State := {
  _handle : Z;
  calls : list Call;
  engine : W
}.

Definition M (A : Type) : Type := State -> result A * State.

Definition ret {A} (a : A) : M A := fun st => (Ok a, st).

Definition raise {A} (e : exn) : M A := fun st => (Raise e, st).

Definition bind {A B} (m : M A) (k : A -> M B) : M B :=
  fun st =>
    match m st with
    | (Ok a, st') => k a st'
    | (Raise e, st') => (Raise e, st')
    end.

Notation "x <- m ;; k" := (bind m (fun x => k))
  (at level 61, m at next level, right associativity).
Notation "m ;;; k" := (bind m (fun _ => k))
  (at level 61, right associativity).

Definition get_handle : M Z := fun st => (Ok (_handle st), st).

Definition set_handle (h : Z) : M unit :=
  fun st => (Ok tt, {| _handle := h; calls := calls st; engine := engine st |}).

(** A foreign call: logged, and run on the engine. *)
Definition foreign {A} (c : Call) (f : W -> A * W) : M A :=
  fun st =>
    let (a, w) := f (engine st) in
    (Ok a, {| _handle := _handle st; calls := calls st ++ [c]; engine := w |}).

Definition encode (s : str) : M bytes :=
  match encode_utf8 s with
  | Some b => ret b
  | None => raise UnicodeEncodeError
  end.

Definition decode (b : bytes) : M str :=
  match decode_utf8 b with
  | Some s => ret s
  | None => raise UnicodeDecodeError
  end.

(** [raw.decode("utf-8")] on a [c_char_p] result: the null pointer is
    [None], which has no [decode]. *)
Definition decode_raw (raw : option bytes) : M str :=
  match raw with
  | Some b => decode b
  | None => raise AttributeError
  end.

(** [raw.decode("utf-8") if raw else ""]: [None] and [b""] are both
    false. *)
Definition decode_or_empty (raw : option bytes) : M str :=
  match raw with
  | Some (b :: bs) => decode (b :: bs)
  | _ => ret []
  end.

(** [json.loads(s)]: its value, or whatever it raised. *)
Definition loads (s : str) : M value := fun st => (json_loads s, st).

Definition lift {A} (r : result A) : M A := fun st => (r, st).

(** Lines 105-108.  The handle is stored before it is tested. *)
Definition __init__ (path : str) : M unit :=
  p <- encode path ;;
  h <- foreign (CallOpen p)
         (fun w => let (r, w') := NovusDB_open lib p w in (c_longlong r, w')) ;;
  set_handle h ;;;
  if h =? 0 then raise (OpenError path) else ret tt.

(** Lines 118-124. *)
Definition exec (sql : str) : M value :=
  h <- get_handle ;;
  q <- encode sql ;;
  raw <- foreign (CallExec h q) (NovusDB_exec lib h q) ;;
  text <- decode_raw raw ;;
  result <- loads text ;;
  failed <- lift (py_in (py "error") result) ;;
  if failed : bool then
    message <- lift (py_getitem result (py "error")) ;;
    raise (QueryError message)
  else ret result.

(** Lines 150-151. *)
Definition last_error : M str :=
  h <- get_handle ;;
  raw <- foreign (CallError h) (NovusDB_error lib h) ;;
  decode_or_empty raw.

(** Lines 133-141. *)
Definition insert_json (collection json_str : str) : M Z :=
  h <- get_handle ;;
  c <- encode collection ;;
  j <- encode json_str ;;
  doc_id <- foreign (CallInsertJson h c j)
              (fun w => let (r, w') := NovusDB_insert_json lib h c j w in
                        (c_longlong r, w')) ;;
  if doc_id <? 0 then
    err <- last_error ;;
    raise (InsertError (match err with
                        | [] => py "insert_json failed"
                        | _ :: _ => err
                        end))
  else ret doc_id.

(** Lines 145-146. *)
Definition collections : M value :=
  h <- get_handle ;;
  raw <- foreign (CallCollections h) (NovusDB_collections lib h) ;;
  text <- decode_raw raw ;;
  loads text.

(** Lines 155-156. *)
Definition dump : M str :=
  h <- get_handle ;;
  raw <- foreign (CallDump h) (NovusDB_dump lib h) ;;
  decode_or_empty raw.

(** Lines 160-162.  The status returned by [NovusDB_close] is not bound to
    anything. *)
Definition close : M unit :=
  h <- get_handle ;;
  if h =? 0 then ret tt
  else
    foreign (CallClose h)
      (fun w => let (r, w') := NovusDB_close lib h w in (c_int r, w')) ;;;
    set_handle 0.

(** [__enter__] returns the object itself, which here is the state. *)
Definition __enter__ : M unit := ret tt.

(** Lines 167-168 and 170-171. *)
Definition __exit__ : M unit := close.

Definition __del__ : M unit := close.

End Driver.

Arguments _handle {W} s.
Arguments calls {W} s.
Arguments engine {W} s.

(** ** A reference [json.loads]

    The decoder follows CPython's scanner: optional blanks around one value,
    objects built pair by pair (a repeated key keeps its first position and
    its last value), strict strings (no raw control character, the eight
    short escapes, four-digit hexadecimal escapes with surrogate pairs
    joined), and the number grammar with its optional fraction and exponent.
    [None] is malformed text. *)

Definition ch (a : ascii) : N := N_of_ascii a.

Definition quote : N := 34.
Definition backslash : N := 92.

Definition is_ws (c : N) : bool :=
  (N.eqb c 32 || N.eqb c 9 || N.eqb c 10 || N.eqb c 13)%N.

Fixpoint skip_ws (s : str) : str :=
  match s with
  | c :: s' => if is_ws c then skip_ws s' else s
  | [] => []
  end.

Definition digit_val (c : N) : option N :=
  (if (48 <=? c) && (c <=? 57) then Some (c - 48) else None)%N.

Definition hex_val (c : N) : option N :=
  (if (48 <=? c) && (c <=? 57) then Some (c - 48)
   else if (65 <=? c) && (c <=? 70) then Some (c - 55)
   else if (97 <=? c) && (c <=? 102) then Some (c - 87)
   else None)%N.

Definition hex4 (a b c d : N) : option N :=
  match hex_val a, hex_val b, hex_val c, hex_val d with
  | Some x, Some y, Some z, Some w => Some (((x * 16 + y) * 16 + z) * 16 + w)%N
  | _, _, _, _ => None
  end.

Definition short_escape (e : N) : option N :=
  (if e =? quote then Some quote
   else if e =? backslash then Some backslash
   else if e =? ch "/" then Some (ch "/")
   else if e =? ch "b" then Some 8
   else if e =? ch "f" then Some 12
   else if e =? ch "n" then Some 10
   else if e =? ch "r" then Some 13
   else if e =? ch "t" then Some 9
   else None)%N.

Definition push (c : N) (r : option (str * str)) : option (str * str) :=
  match r with
  | Some (cs, rest) => Some (c :: cs, rest)
  | None => None
  end.

(** The body of a string literal, from just after its opening quote: the
    decoded text and what follows the closing quote. *)
Fixpoint scan_string (s : str) : option (str * str) :=
  match s with
  | [] => None
  | c :: s1 =>
      (if c =? quote then Some ([], s1)
       else if c <? 32 then None
       else if c =? backslash then
         match s1 with
         | [] => None
         | e :: s2 =>
             if e =? ch "u" then
               match s2 with
               | h1 :: h2 :: h3 :: h4 :: s3 =>
                   match hex4 h1 h2 h3 h4 with
                   | None => None
                   | Some u =>
                       if (0xD800 <=? u) && (u <=? 0xDBFF) then
                         match s3 with
                         | b :: e' :: l1 :: l2 :: l3 :: l4 :: s4 =>
                             if (b =? backslash) && (e' =? ch "u") then
                               match hex4 l1 l2 l3 l4 with
                               | None => None
                               | Some u2 =>
                                   if (0xDC00 <=? u2) && (u2 <=? 0xDFFF) then
                                     push (0x10000 + (u - 0xD800) * 1024
                                           + (u2 - 0xDC00))
                                          (scan_string s4)
                                   else push u (scan_string s3)
                               end
                             else push u (scan_string s3)
                         | _ => push u (scan_string s3)
                         end
                       else push u (scan_string s3)
                   end
               | _ => None
               end
             else
               match short_escape e with
               | Some x => push x (scan_string s2)
               | None => None
               end
         end
       else push c (scan_string s1))%N
  end.

(** A run of decimal digits: its value continuing [acc], how many there
    were, and the rest. *)
Fixpoint take_digits (s : str) (acc : N) (n : nat) : N * nat * str :=
  match s with
  | c :: s' =>
      match digit_val c with
      | Some d => take_digits s' (acc * 10 + d)%N (S n)
      | None => (acc, n, s)
      end
  | [] => (acc, n, s)
  end.

Definition signed (negative : bool) (n : N) : Z :=
  if negative then - Z.of_N n else Z.of_N n.

(** A number literal: an optional minus sign; then a single zero, or a
    non-zero digit followed by digits; then, optionally, a dot and at least
    one digit; then, optionally, [e] or [E], an optional sign and at least one
    digit.  An optional part that does not match in full is left unread.  The
    value is an integer when there is neither fraction nor exponent. *)
Definition scan_number (s : str) : option (value * str) :=
  let (negative, s1) :=
    match s with
    | c :: s' => if N.eqb c (ch "-") then (true, s') else (false, s)
    | [] => (false, s)
    end in
  let int_part :=
    match s1 with
    | c :: s2 =>
        if N.eqb c (ch "0") then Some (0%N, s2)
        else match digit_val c with
             | Some _ => let '(v, _, r) := take_digits s1 0%N O in Some (v, r)
             | None => None
             end
    | [] => None
    end in
  match int_part with
  | None => None
  | Some (i, r) =>
      let '(digits, k, r1, has_frac) :=
        match r with
        | dot :: ((d :: _) as r') =>
            if N.eqb dot (ch ".") then
              match digit_val d with
              | Some _ => let '(v, n, r2) := take_digits r' i O in
                          (v, n, r2, true)
              | None => (i, O, r, false)
              end
            else (i, O, r, false)
        | _ => (i, O, r, false)
        end in
      let '(e, r3, has_exp) :=
        match r1 with
        | x :: r2 =>
            if N.eqb x (ch "e") || N.eqb x (ch "E") then
              let '(eneg, signed_part, r2') :=
                match r2 with
                | sg :: r2'' =>
                    if N.eqb sg (ch "-") then (true, true, r2'')
                    else if N.eqb sg (ch "+") then (false, true, r2'')
                    else (false, false, r2)
                | [] => (false, false, r2)
                end in
              match r2' with
              | d :: _ =>
                  match digit_val d with
                  | Some _ => let '(v, _, r4) := take_digits r2' 0%N O in
                              (signed eneg v, r4, true)
                  | None => (0, r1, false)
                  end
              | [] => (0, r1, false)
              end
            else (0, r1, false)
        | [] => (0, r1, false)
        end in
      if has_frac || has_exp
      then Some (VFloat (FDec negative digits (e - Z.of_nat k)), r3)
      else Some (VInt (signed negative digits), r3)
  end.

Definition scan_word (w : string) (v : value) (s : str) : option (value * str) :=
  if is_prefix (py w) s then Some (v, skipn (String.length w) s) else None.

Definition orelse {A} (a b : option A) : option A :=
  match a with Some _ => a | None => b end.

Fixpoint scan_once (fuel : nat) (s : str) : option (value * str) :=
  match fuel with
  | O => None
  | S fuel' =>
      match s with
      | [] => None
      | c :: s1 =>
          if N.eqb c quote then
            match scan_string s1 with
            | Some (k, r) => Some (VStr k, r)
            | None => None
            end
          else if N.eqb c (ch "{") then
            match skip_ws s1 with
            | (c2 :: s3) as s2 =>
                if N.eqb c2 (ch "}") then Some (VDict [], s3)
                else scan_members fuel' [] s2
            | [] => None
            end
          else if N.eqb c (ch "[") then
            match skip_ws s1 with
            | (c2 :: s3) as s2 =>
                if N.eqb c2 (ch "]") then Some (VList [], s3)
                else scan_elements fuel' [] s2
            | [] => None
            end
          else
            orelse (scan_word "null" VNone s)
           (orelse (scan_word "true" (VBool true) s)
           (orelse (scan_word "false" (VBool false) s)
           (orelse (scan_number s)
           (orelse (scan_word "NaN" (VFloat FNaN) s)
           (orelse (scan_word "Infinity" (VFloat (FInf false)) s)
                   (scan_word "-Infinity" (VFloat (FInf true)) s))))))
      end
  end

with scan_members (fuel : nat) (acc : list (str * value)) (s : str)
  : option (value * str) :=
  match fuel with
  | O => None
  | S fuel' =>
      match s with
      | c :: s1 =>
          if N.eqb c quote then
            match scan_string s1 with
            | Some (k, r) =>
                match skip_ws r with
                | colon :: r1 =>
                    if N.eqb colon (ch ":") then
                      match scan_once fuel' (skip_ws r1) with
                      | Some (v, r2) =>
                          let acc' := dict_set k v acc in
                          match skip_ws r2 with
                          | d :: r3 =>
                              if N.eqb d (ch "}") then Some (VDict acc', r3)
                              else if N.eqb d (ch ",")
                              then scan_members fuel' acc' (skip_ws r3)
                              else None
                          | [] => None
                          end
                      | None => None
                      end
                    else None
                | [] => None
                end
            | None => None
            end
          else None
      | [] => None
      end
  end

with scan_elements (fuel : nat) (acc : list value) (s : str)
  : option (value * str) :=
  match fuel with
  | O => None
  | S fuel' =>
      match scan_once fuel' s with
      | Some (v, r) =>
          match skip_ws r with
          | d :: r1 =>
              if N.eqb d (ch "]") then Some (VList (acc ++ [v]), r1)
              else if N.eqb d (ch ",")
              then scan_elements fuel' (acc ++ [v]) (skip_ws r1)
              else None
          | [] => None
          end
      | None => None
      end
  end.

Definition scan_text (s : str) : option value :=
  match scan_once (2 * List.length s + 2) (skip_ws s) with
  | Some (v, r) =>
      match skip_ws r with
      | [] => Some v
      | _ :: _ => None
      end
  | None => None
  end.

(** The reference decoder raises [JSONDecodeError] only: it has neither
    CPython's limit on nesting nor its limit on the digits of an integer, so
    where CPython raises [RecursionError] or [ValueError] it still gives the
    value. *)
Definition json_loads_ref (s : str) : result value :=
  match scan_text s with
  | Some v => Ok v
  | None => Raise JSONDecodeError
  end.

(** ** A scripted engine

    A stand-in for the shared library whose state is the list of replies it
    still has to give: each foreign call consumes the next one.  Together
    with the call log this is a call-counting stub of the boundary. *)

Inductive Reply :=
| RInt (z : Z)
| RPtr (p : option bytes).

Definition Script := list Reply.

Definition next_int (w : Script) : Z * Script :=
  match w with
  | RInt z :: w' => (z, w')
  | RPtr _ :: w' => (0, w')
  | [] => (0, [])
  end.

Definition next_ptr (w : Script) : option bytes * Script :=
  match w with
  | RPtr p :: w' => (p, w')
  | RInt _ :: w' => (None, w')
  | [] => (None, [])
  end.

Definition scripted : Lib Script := {|
  NovusDB_open := fun _ => next_int;
  NovusDB_close := fun _ => next_int;
  NovusDB_exec := fun _ _ => next_ptr;
  NovusDB_insert_json := fun _ _ _ => next_int;
  NovusDB_collections := fun _ => next_ptr;
  NovusDB_error := fun _ => next_ptr;
  NovusDB_dump := fun _ => next_ptr;
  NovusDB_free := fun _ w => w
|}.

(** A connection over the scripted engine, with an empty call log. *)
Definition conn (h : Z) (script : Script) : State :=
  {| _handle := h; calls := []; engine := script |}.

(** ** What a method makes of a reply

    After its foreign call a method only decodes: no state is read or
    written.  These are the decoding steps as functions of the reply. *)

(** Lines 119-124: what [exec] makes of the envelope it received. *)
Definition envelope (json_loads : str -> result value) (raw : option bytes)
  : result value :=
  match raw with
  | None => Raise AttributeError
  | Some b =>
      match decode_utf8 b with
      | None => Raise UnicodeDecodeError
      | Some text =>
          match json_loads text with
          | Raise e => Raise e
          | Ok result =>
              match py_in (py "error") result with
              | Raise e => Raise e
              | Ok false => Ok result
              | Ok true =>
                  match py_getitem result (py "error") with
                  | Ok message => Raise (QueryError message)
                  | Raise e => Raise e
                  end
              end
          end
      end
  end.

(** Line 146: what [collections] makes of its reply. *)
Definition name_list (json_loads : str -> result value) (raw : option bytes)
  : result value :=
  match raw with
  | None => Raise AttributeError
  | Some b =>
      match decode_utf8 b with
      | None => Raise UnicodeDecodeError
      | Some text =>
          match json_loads text with
          | Raise e => Raise e
          | Ok v => Ok v
          end
      end
  end.

(** Lines 151 and 156: what [last_error] and [dump] make of theirs. *)
Definition text_or_empty (raw : option bytes) : result str :=
  match raw with
  | Some (b :: bs) =>
      match decode_utf8 (b :: bs) with
      | Some s => Ok s
      | None => Raise UnicodeDecodeError
      end
  | _ => Ok []
  end.

(** Line 140: [err or "insert_json failed"]. *)
Definition insert_message (err : str) : str :=
  match err with
  | [] => py "insert_json failed"
  | _ :: _ => err
  end.

(** The state after foreign calls [cs] that left the engine in [w]. *)
Definition logged {W} (st : @State W) (cs : list Call) (w : W) : State :=
  {| _handle := _handle st; calls := calls st ++ cs; engine := w |}.

(** The state after a release: as [logged], with the handle cleared. *)
Definition released {W} (st : @State W) (cs : list Call) (w : W) : State :=
  {| _handle := 0; calls := calls st ++ cs; engine := w |}.

(** ** Sequences of invocations *)

(** The three ways [close] gets invoked: directly, on leaving a [with]
    block, and on finalization. *)
Inductive Closer := ByClose | ByExit | ByDel.

(** The methods a caller can invoke on a constructed connection.  The
    constructor is not among them: it runs once, on the fresh object. *)
Inductive Op :=
| OpExec (sql : str)
| OpInsertJson (collection json_str : str)
| OpCollections
| OpLastError
| OpDump
| OpClose
| OpEnter
| OpExit
| OpDel.

(** The state machine of the specification: [Closed] initially, [Open] after
    a successful open, [Closed] for good after a close. *)
Inductive Phase := Closed | Open.

Definition spec_phase_after_open (succeeded : bool) : Phase :=
  if succeeded then Open else Closed.

Definition spec_phase_step (p : Phase) (o : Op) : Phase :=
  match o with
  | OpClose | OpExit | OpDel => Closed
  | _ => p
  end.

Definition succeeded {A} (r : result A) : bool :=
  match r with Ok _ => true | Raise _ => false end.

Section Sequences.

Context {W : Type}.
Variable lib : Lib W.
Variable json_loads : str -> result value.

Definition run_closer (c : Closer) : M unit :=
  match c with
  | ByClose => close lib
  | ByExit => __exit__ lib
  | ByDel => __del__ lib
  end.

(** Invoke each closer in turn, whatever the previous ones returned; the
    outcomes are collected in order. *)
Fixpoint run_closers (cs : list Closer) (st : State)
  : list (result unit) * State :=
  match cs with
  | [] => ([], st)
  | c :: cs' =>
      let (r, st1) := run_closer c st in
      let (rs, st2) := run_closers cs' st1 in
      (r :: rs, st2)
  end.

(** The state an operation leaves, whether it returned or raised. *)
Definition step (st : State) (o : Op) : State :=
  match o with
  | OpExec sql => snd (exec lib json_loads sql st)
  | OpInsertJson c j => snd (insert_json lib c j st)
  | OpCollections => snd (collections lib json_loads st)
  | OpLastError => snd (last_error lib st)
  | OpDump => snd (dump lib st)
  | OpClose => snd (close lib st)
  | OpEnter => snd (__enter__ st)
  | OpExit => snd (__exit__ lib st)
  | OpDel => snd (__del__ lib st)
  end.

Definition steps (ops : list Op) (st : State) : State :=
  fold_left step ops st.

End Sequences.

(** ** Locating and loading the shared library (lines 26-55 and 69-74)

    The search reads the platform name and probes the file system, and
    [ctypes.CDLL] loads what was found.  The platform, the file system, the
    path functions of [os.path] and the loader are parameters. *)

Record Os := {
  module_dir : str;
  system : str;
  getcwd : str;
  join : str -> list str -> str;
  isfile : str -> bool;
  abspath : str -> str
}.

(** What can end the program besides an error of the driver: the search
    fails, the library does not load, or the command line asks to exit. *)
Inductive pyexn :=
| DriverError (e : exn)
| FileNotFoundError (names search_paths : list str)
| LoadError
| SystemExit (code : Z).

Inductive outcome (A : Type) :=
| Done (a : A)
| Fail (e : pyexn).
Arguments Done {A} a.
Arguments Fail {A} e.

(** Lines 31-36. *)
Definition library_names (system : str) : list str :=
  if str_eqb system (py "Windows") then [py "NovusDB.dll"]
  else if str_eqb system (py "Darwin")
       then [py "libNovusDB.dylib"; py "NovusDB.dylib"]
       else [py "libNovusDB.so"; py "NovusDB.so"].

(** Lines 38-43. *)
Definition search_paths (os : Os) : list str :=
  [module_dir os;
   join os (module_dir os) [py ".."; py "c"];
   join os (module_dir os) [py ".."];
   getcwd os].

(** Lines 46-49, the inner loop: the names, in order, in one directory. *)
Fixpoint probe_names (os : Os) (d : str) (names : list str) : option str :=
  match names with
  | [] => None
  | name :: rest =>
      let path := join os d [name] in
      if isfile os path then Some (abspath os path)
      else probe_names os d rest
  end.

(** Lines 45-49, the outer loop: the directories, in order. *)
Fixpoint probe_dirs (os : Os) (dirs names : list str) : option str :=
  match dirs with
  | [] => None
  | d :: rest =>
      match probe_names os d names with
      | Some found => Some found
      | None => probe_dirs os rest names
      end
  end.

(** Lines 26-55. *)
Definition _find_library (os : Os) : outcome str :=
  let names := library_names (system os) in
  let dirs := search_paths os in
  match probe_dirs os dirs names with
  | Some found => Done found
  | None => Fail (FileNotFoundError names dirs)
  end.

(** Lines 69-72: [lib_path] is used when it is given and not empty. *)
Definition lib_file (os : Os) (lib_path : option str) : outcome str :=
  match lib_path with
  | Some (c :: rest) => Done (c :: rest)
  | _ => _find_library os
  end.

(** The paths the search probes, in the order it probes them; the search
    is compared with this list below. *)
Definition candidates (os : Os) : list str :=
  flat_map (fun d => map (fun name => join os d [name])
                         (library_names (system os)))
           (search_paths os).

(** [" ".join(words)]. *)
Fixpoint join_spaces (words : list str) : str :=
  match words with
  | [] => []
  | [w] => w
  | w :: rest => w ++ 32%N :: join_spaces rest
  end.

Definition usage : str :=
  py "Usage: python NovusDB.py <database.dlite> [sql]".

Definition is_ascii (s : str) : bool := forallb (fun c => (c <? 128)%N) s.

Section Program.

Context {W : Type}.
Variable os : Os.

(** [ctypes.CDLL] followed by the declarations of lines 76-103: [None] when
    the file does not load or lacks one of the functions. *)
Variable cdll : str -> option (Lib W).

Variable json_loads : str -> result value.

(** [json.dumps(v, indent=2, ensure_ascii=False)] and [str(v)]: the text,
    or whatever was raised (both recurse on the value). *)
Variable json_dumps : value -> result str.
Variable py_str : value -> result str.

(** Whether the encoding of standard output has all the characters of a
    text that is not plain ASCII. *)
Variable stdout_encodes : str -> bool.

(** [print(s)] writes the line, or raises [UnicodeEncodeError] and writes
    nothing when standard output cannot encode it.  Plain ASCII is taken to
    be encodable whatever the encoding; a terminal or pipe that refuses the
    bytes is outside the embedding. *)
Definition printable (s : str) : bool := is_ascii s || stdout_encodes s.

(** The constructor, lines 61-108: locate the library, load it, open the
    database.  It gives the loaded library back with the outcome. *)
Definition NovusDB (path : str) (lib_path : option str) (st : State)
  : outcome (Lib W) * State :=
  match lib_file os lib_path with
  | Fail e => (Fail e, st)
  | Done file =>
      match cdll file with
      | None => (Fail LoadError, st)
      | Some lib =>
          match __init__ lib path st with
          | (Ok _, st') => (Done lib, st')
          | (Raise e, st') => (Fail (DriverError e), st')
          end
      end
  end.

(** A [with] block on a connection: [__enter__], the body, and [__exit__]
    however the body ended; [__exit__] returns [None], so what the body
    raised is raised again after it.  The body also gives the lines it
    printed. *)
Definition with_connection (lib : Lib W)
    (body : State -> outcome unit * list str * State) (st : State)
  : outcome unit * list str * State :=
  match __enter__ st with
  | (Raise e, st1) => (Fail (DriverError e), [], st1)
  | (Ok _, st1) =>
      let '(r, out, st2) := body st1 in
      match __exit__ lib st2 with
      | (Ok _, st3) => (r, out, st3)
      | (Raise e, st3) => (Fail (DriverError e), out, st3)
      end
  end.

(** Lines 182-188, the body of the block. *)
Definition main_body (lib : Lib W) (db_path : str) (args : list str)
    (st : State) : outcome unit * list str * State :=
  match args with
  | _ :: _ =>
      match exec lib json_loads (join_spaces args) st with
      | (Raise e, st') => (Fail (DriverError e), [], st')
      | (Ok result, st') =>
          match json_dumps result with
          | Raise e => (Fail (DriverError e), [], st')
          | Ok text =>
              if printable text then (Done tt, [text], st')
              else (Fail (DriverError UnicodeEncodeError), [], st')
          end
      end
  | [] =>
      let connected := py "Connected to " ++ db_path in
      if printable connected then
        match collections lib json_loads st with
        | (Raise e, st') => (Fail (DriverError e), [connected], st')
        | (Ok names, st') =>
            match py_str names with
            | Raise e => (Fail (DriverError e), [connected], st')
            | Ok text =>
                let line := py "Collections: " ++ text in
                if printable line then (Done tt, [connected; line], st')
                else (Fail (DriverError UnicodeEncodeError), [connected], st')
            end
        end
      else (Fail (DriverError UnicodeEncodeError), [], st)
  end.

(** Lines 175-188: the command line.  The result is how the program ends,
    the lines it printed, and the state it leaves.  [DriverError] wraps any
    exception of the type [exn], whichever call raised it. *)
Definition main (argv : list str) (st : State)
  : outcome unit * list str * State :=
  match argv with
  | [] | [_] =>
      if printable usage then (Fail (SystemExit 1), [usage], st)
      else (Fail (DriverError UnicodeEncodeError), [], st)
  | _ :: db_path :: args =>
      match NovusDB db_path None st with
      | (Fail e, st1) => (Fail e, [], st1)
      | (Done lib, st1) =>
          with_connection lib (main_body lib db_path args) st1
      end
  end.

(** The two branches of the body after their foreign call, as functions of
    what the method gave; the body is compared with them below. *)

(** What the statement branch prints and how it ends, from what [exec]
    gave. *)
Definition statement_end (r : result value) : outcome unit * list str :=
  match r with
  | Raise e => (Fail (DriverError e), [])
  | Ok v =>
      match json_dumps v with
      | Raise e => (Fail (DriverError e), [])
      | Ok text =>
          if printable text then (Done tt, [text])
          else (Fail (DriverError UnicodeEncodeError), [])
      end
  end.

(** What the listing branch prints after its first line and how it ends,
    from what [collections] gave. *)
Definition listing_end (connected : str) (r : result value)
  : outcome unit * list str :=
  match r with
  | Raise e => (Fail (DriverError e), [connected])
  | Ok v =>
      match py_str v with
      | Raise e => (Fail (DriverError e), [connected])
      | Ok text =>
          if printable (py "Collections: " ++ text)
          then (Done tt, [connected; py "Collections: " ++ text])
          else (Fail (DriverError UnicodeEncodeError), [connected])
      end
  end.

End Program.

(** A file system for scenarios: the files that exist are listed, joining
    puts a slash between the parts, and paths are absolute already. *)
Fixpoint join_slash (a : str) (parts : list str) : str :=
  match parts with
  | [] => a
  | part :: rest => join_slash (a ++ 47%N :: part) rest
  end.

Definition listed_os (system dir cwd : str) (files : list str) : Os := {|
  module_dir := dir;
  system := system;
  getcwd := cwd;
  join := join_slash;
  isfile := fun path => existsb (str_eqb path) files;
  abspath := fun path => path
|}.

(** A loader for scenarios: one file loads, as the scripted engine. *)
Definition load_only (file : str) (f : str) : option (Lib Script) :=
  if str_eqb f file then Some scripted else None.

(** ** The object before its handle is assigned

    The constructor may raise before line 106: when the library is not
    found, when it does not load, and when the path cannot be encoded.  The
    object then has no [_handle] attribute (and, in the first two cases, no
    [_lib] either), and every method that reads it, [close] included, raises
    [AttributeError].  [loaded] is the library when lines 74-103 have
    completed. *)

Inductive Instance {W : Type} :=
| Unassigned (loaded : option (Lib W)) (log : list Call) (engine : W)
| Assigned (lib : Lib W) (st : @State W).
Arguments Instance : clear implicits.

(** A method invoked on the object. *)
Definition invoke {W A} (method : Lib W -> M A) (o : Instance W)
  : result A * Instance W :=
  match o with
  | Unassigned _ _ _ => (Raise AttributeError, o)
  | Assigned lib st =>
      let (r, st') := method lib st in (r, Assigned lib st')
  end.

(** The constructor on a fresh object, lines 61-108: how it ends and the
    object it leaves behind. *)
Definition construct {W} (os : Os) (cdll : str -> option (Lib W))
    (path : str) (lib_path : option str) (log : list Call) (w : W)
  : outcome unit * Instance W :=
  match lib_file os lib_path with
  | Fail e => (Fail e, Unassigned None log w)
  | Done file =>
      match cdll file with
      | None => (Fail LoadError, Unassigned None log w)
      | Some lib =>
          match encode_utf8 path with
          | None =>
              (Fail (DriverError UnicodeEncodeError),
               Unassigned (Some lib) log w)
          | Some p =>
              let (r, w') := NovusDB_open lib p w in
              let h := c_longlong r in
              (if h =? 0 then Fail (DriverError (OpenError path)) else Done tt,
               Assigned lib
                 {| _handle := h; calls := log ++ [CallOpen p];
                    engine := w' |})
          end
      end
  end.

(** ** Reading the call log *)

(** The handle a logged call was given; the open call has none. *)
Definition call_handle (c : Call) : option Z :=
  match c with
  | CallOpen _ => None
  | CallClose h | CallExec h _ | CallInsertJson h _ _
  | CallCollections h | CallError h | CallDump h => Some h
  end.

(** A call other than a release, made on handle [h]. *)
Definition uses (h : Z) (c : Call) : bool :=
  negb (is_close c) &&
  match call_handle c with
  | Some x => x =? h
  | None => false
  end.

(** A log in which handle [h] is used, then possibly released once, and
    after the release only the zero handle is passed. *)
Fixpoint released_once (h : Z) (cs : list Call) : bool :=
  match cs with
  | [] => true
  | c :: rest =>
      if is_close c
      then match call_handle c with
           | Some x => (x =? h) && forallb (uses 0) rest
           | None => false
           end
      else uses h c && released_once h rest
  end.

(** * Properties *)

(** ** The codec and the reference decoder on examples *)

Example encode_one_to_four_bytes :
  encode_utf8 [0x41; 0xE9; 0x20AC; 0x1F600]%N
  = Some [x41; xc3; xa9; xe2; x82; xac; xf0; x9f; x98; x80].
Proof. vm_compute. reflexivity. Qed.

Example encode_rejects_surrogate : encode_utf8 [0x41; 0xD83D]%N = None.
Proof. vm_compute. reflexivity. Qed.

Example decode_rejects_overlong : decode_utf8 [xc0; x80] = None.
Proof. vm_compute. reflexivity. Qed.

Example decode_rejects_surrogate : decode_utf8 [xed; xa0; x80] = None.
Proof. vm_compute. reflexivity. Qed.

Example decode_rejects_truncated : decode_utf8 [x41; xe2; x82] = None.
Proof. vm_compute. reflexivity. Qed.

Example decode_rejects_above_range : decode_utf8 [xf4; x90; x80; x80] = None.
Proof. vm_compute. reflexivity. Qed.

Example loads_success_envelope :
  json_loads_ref
    (pyq "{'docs': [{'name': 'Alice', 'age': 30, '_id': 1}], 'rows_affected': 0, 'last_insert_id': 0}")
  = Ok (VDict [(py "docs",
                  VList [VDict [(py "name", VStr (py "Alice"));
                                (py "age", VInt 30);
                                (py "_id", VInt 1)]]);
                 (py "rows_affected", VInt 0);
                 (py "last_insert_id", VInt 0)]).
Proof. vm_compute. reflexivity. Qed.

Example loads_repeated_key :
  json_loads_ref (pyq "{'a': 1, 'b': 2, 'a': 3}")
  = Ok (VDict [(py "a", VInt 3); (py "b", VInt 2)]).
Proof. vm_compute. reflexivity. Qed.

Example loads_numbers :
  json_loads_ref (pyq " [0, -12, 2.50, -1e3, 12.5E-1, NaN, -Infinity] ")
  = Ok (VList [VInt 0; VInt (-12);
                 VFloat (FDec false 250 (-2)); VFloat (FDec true 1 3);
                 VFloat (FDec false 125 (-2));
                 VFloat FNaN; VFloat (FInf true)]).
Proof. vm_compute. reflexivity. Qed.

Example loads_escapes :
  json_loads_ref (pyq "'a\n\u00e9\ud83d\ude00\ud83d'")
  = Ok (VStr [0x61; 0x0A; 0xE9; 0x1F600; 0xD83D]%N).
Proof. vm_compute. reflexivity. Qed.

Example loads_rejects_trailing_comma : json_loads_ref (pyq "[1, 2,]")
  = Raise JSONDecodeError.
Proof. vm_compute. reflexivity. Qed.

Example loads_rejects_leading_zero : json_loads_ref (pyq "01")
  = Raise JSONDecodeError.
Proof. vm_compute. reflexivity. Qed.

Example loads_rejects_extra_data : json_loads_ref (pyq "{} {}")
  = Raise JSONDecodeError.
Proof. vm_compute. reflexivity. Qed.

Example loads_rejects_empty_text : json_loads_ref []
  = Raise JSONDecodeError.
Proof. vm_compute. reflexivity. Qed.

(** ** Decoding undoes encoding *)

Section Codec.

Open Scope N_scope.

Ltac unroll :=
  cbv beta iota zeta delta [decode_utf8 app]; fold decode_utf8.
Ltac div_mod := zify; Z.to_euclidean_division_equations; lia.
Ltac ltb_true := symmetry; apply N.ltb_lt; div_mod.
Ltac ltb_false := symmetry; apply N.ltb_ge; div_mod.
Ltac leb_true := symmetry; apply N.leb_le; div_mod.

Lemma to_N_byte_of n : n < 256 -> Byte.to_N (byte_of n) = n.
Proof.
  intros H. unfold byte_of.
  destruct (Byte.of_N n) as [b|] eqn:E.
  - apply Byte.to_of_N. exact E.
  - apply Byte.of_N_None_iff in E. lia.
Qed.

Lemma continuation_byte_of n :
  n < 64 -> continuation (byte_of (0x80 + n)) = Some n.
Proof.
  intros H. unfold continuation. rewrite to_N_byte_of by lia.
  replace (0x80 <=? 0x80 + n) with true by leb_true.
  replace (0x80 + n <=? 0xBF) with true by leb_true.
  cbn [andb]. f_equal. lia.
Qed.

Lemma decode_encode_cp c rest :
  match encode_cp c with
  | Some b => decode_utf8 (b ++ rest) = option_map (cons c) (decode_utf8 rest)
  | None => True
  end.
Proof.
  unfold encode_cp.
  destruct (c <? 0x80) eqn:H1.
  { unroll. apply N.ltb_lt in H1. rewrite to_N_byte_of by lia.
    apply N.ltb_lt in H1. rewrite H1. reflexivity. }
  apply N.ltb_ge in H1.
  destruct (c <? 0x800) eqn:H2.
  { apply N.ltb_lt in H2. unroll.
    rewrite to_N_byte_of by div_mod.
    replace (0xC0 + c / 64 <? 0x80) with false by ltb_false.
    replace (0xC0 + c / 64 <? 0xC2) with false by ltb_false.
    replace (0xC0 + c / 64 <? 0xE0) with true by ltb_true.
    rewrite continuation_byte_of by div_mod.
    replace ((0xC0 + c / 64 - 0xC0) * 64 + c mod 64) with c by div_mod.
    reflexivity. }
  apply N.ltb_ge in H2.
  destruct (c <? 0x10000) eqn:H3.
  { destruct (is_surrogate c) eqn:S; [exact I|].
    apply N.ltb_lt in H3. unroll.
    rewrite to_N_byte_of by div_mod.
    replace (0xE0 + c / 4096 <? 0x80) with false by ltb_false.
    replace (0xE0 + c / 4096 <? 0xC2) with false by ltb_false.
    replace (0xE0 + c / 4096 <? 0xE0) with false by ltb_false.
    replace (0xE0 + c / 4096 <? 0xF0) with true by ltb_true.
    rewrite !continuation_byte_of by div_mod.
    replace ((0xE0 + c / 4096 - 0xE0) * 4096 + (c / 64) mod 64 * 64 + c mod 64)
      with c by div_mod.
    replace (c <? 0x800) with false by ltb_false.
    rewrite S. reflexivity. }
  apply N.ltb_ge in H3.
  destruct (c <? 0x110000) eqn:H4; [|exact I].
  apply N.ltb_lt in H4. unroll.
  rewrite to_N_byte_of by div_mod.
  replace (0xF0 + c / 262144 <? 0x80) with false by ltb_false.
  replace (0xF0 + c / 262144 <? 0xC2) with false by ltb_false.
  replace (0xF0 + c / 262144 <? 0xE0) with false by ltb_false.
  replace (0xF0 + c / 262144 <? 0xF0) with false by ltb_false.
  replace (0xF0 + c / 262144 <? 0xF5) with true by ltb_true.
  rewrite !continuation_byte_of by div_mod.
  replace ((0xF0 + c / 262144 - 0xF0) * 262144 + (c / 4096) mod 64 * 4096
           + (c / 64) mod 64 * 64 + c mod 64) with c by div_mod.
  replace (c <? 0x10000) with false by ltb_false.
  replace (0x10FFFF <? c) with false by ltb_false.
  reflexivity.
Qed.

(** What [str.encode] produces, [bytes.decode] reads back. *)
Lemma decode_encode s : forall b,
  encode_utf8 s = Some b -> decode_utf8 b = Some s.
Proof.
  induction s as [|c s IH]; intros b.
  - intros [= <-]. reflexivity.
  - cbv beta iota delta [encode_utf8]; fold encode_utf8.
    destruct (encode_cp c) as [bc|] eqn:Ec; [|discriminate].
    destruct (encode_utf8 s) as [bs|]; [|discriminate].
    intros [= <-]. pose proof (decode_encode_cp c bs) as D.
    rewrite Ec in D. rewrite D, (IH bs eq_refl). reflexivity.
Qed.

End Codec.

(** ** How each method runs *)

Section Runs.

Context {W : Type}.
Variable lib : Lib W.
Variable json_loads : str -> result value.
Implicit Type st : @State W.

Ltac run :=
  unfold exec, insert_json, collections, last_error, dump, close,
    __init__, __exit__, __del__, __enter__, loads, decode_raw,
    decode_or_empty, decode, encode, lift, foreign, set_handle, get_handle,
    bind, raise, ret, logged, released; cbn.

Lemma init_unencodable st path :
  encode_utf8 path = None ->
  __init__ lib path st = (Raise UnicodeEncodeError, st).
Proof. intros E. run. rewrite E. reflexivity. Qed.

Lemma init_run st path p :
  encode_utf8 path = Some p ->
  __init__ lib path st =
    let r := NovusDB_open lib p (engine st) in
    let h := c_longlong (fst r) in
    (if h =? 0 then Raise (OpenError path) else Ok tt,
     {| _handle := h; calls := calls st ++ [CallOpen p]; engine := snd r |}).
Proof.
  intros E. run. rewrite E. cbn.
  destruct (NovusDB_open lib p (engine st)) as [r w]. cbn.
  destruct (c_longlong r =? 0); reflexivity.
Qed.

Lemma exec_unencodable st sql :
  encode_utf8 sql = None ->
  exec lib json_loads sql st = (Raise UnicodeEncodeError, st).
Proof. intros E. run. rewrite E. reflexivity. Qed.

Lemma exec_run st sql q :
  encode_utf8 sql = Some q ->
  exec lib json_loads sql st =
    let r := NovusDB_exec lib (_handle st) q (engine st) in
    (envelope json_loads (fst r),
     logged st [CallExec (_handle st) q] (snd r)).
Proof.
  intros E. run. rewrite E. cbn.
  destruct (NovusDB_exec lib (_handle st) q (engine st)) as [raw w]. cbn.
  unfold envelope.
  destruct raw as [b|]; [|reflexivity]. cbn.
  destruct (decode_utf8 b) as [text|]; [|reflexivity]. cbn.
  destruct (json_loads text) as [v|]; [|reflexivity]. cbn.
  destruct (py_in _ v) as [[|]|e]; cbn; try reflexivity.
  destruct (py_getitem v _); reflexivity.
Qed.

Lemma collections_run st :
  collections lib json_loads st =
    let r := NovusDB_collections lib (_handle st) (engine st) in
    (name_list json_loads (fst r),
     logged st [CallCollections (_handle st)] (snd r)).
Proof.
  run. destruct (NovusDB_collections lib (_handle st) (engine st)) as [raw w].
  cbn. unfold name_list.
  destruct raw as [b|]; [|reflexivity]. cbn.
  destruct (decode_utf8 b) as [text|]; [|reflexivity]. cbn.
  destruct (json_loads text); reflexivity.
Qed.

Lemma last_error_run st :
  last_error lib st =
    let r := NovusDB_error lib (_handle st) (engine st) in
    (text_or_empty (fst r), logged st [CallError (_handle st)] (snd r)).
Proof.
  run. destruct (NovusDB_error lib (_handle st) (engine st)) as [raw w].
  cbn. unfold text_or_empty.
  destruct raw as [[|b bs]|]; try reflexivity.
  destruct (decode_utf8 (b :: bs)); reflexivity.
Qed.

Lemma dump_run st :
  dump lib st =
    let r := NovusDB_dump lib (_handle st) (engine st) in
    (text_or_empty (fst r), logged st [CallDump (_handle st)] (snd r)).
Proof.
  run. destruct (NovusDB_dump lib (_handle st) (engine st)) as [raw w].
  cbn. unfold text_or_empty.
  destruct raw as [[|b bs]|]; try reflexivity.
  destruct (decode_utf8 (b :: bs)); reflexivity.
Qed.

Lemma insert_json_unencodable st c j :
  encode_utf8 c = None \/ encode_utf8 j = None ->
  insert_json lib c j st = (Raise UnicodeEncodeError, st).
Proof.
  intros E. run.
  destruct (encode_utf8 c); cbn.
  - destruct E as [E|E]; [discriminate|]. rewrite E. reflexivity.
  - reflexivity.
Qed.

Lemma insert_json_run st c j cb jb :
  encode_utf8 c = Some cb ->
  encode_utf8 j = Some jb ->
  insert_json lib c j st =
    let r := NovusDB_insert_json lib (_handle st) cb jb (engine st) in
    let doc_id := c_longlong (fst r) in
    if doc_id <? 0 then
      let e := NovusDB_error lib (_handle st) (snd r) in
      (match text_or_empty (fst e) with
       | Ok err => Raise (InsertError (insert_message err))
       | Raise x => Raise x
       end,
       logged st [CallInsertJson (_handle st) cb jb; CallError (_handle st)]
         (snd e))
    else (Ok doc_id, logged st [CallInsertJson (_handle st) cb jb] (snd r)).
Proof.
  intros Ec Ej.
  unfold insert_json, bind at 1 2 3 4, get_handle, encode.
  rewrite Ec, Ej. unfold ret, foreign. cbn.
  destruct (NovusDB_insert_json lib (_handle st) cb jb (engine st))
    as [r w]. cbn.
  destruct (c_longlong r <? 0); [|reflexivity].
  unfold bind. rewrite last_error_run. cbn.
  destruct (NovusDB_error lib (_handle st) w) as [raw w']. cbn.
  unfold logged, raise. cbn. rewrite <- app_assoc. cbn.
  destruct (text_or_empty raw) as [[|x err]|x]; reflexivity.
Qed.

Lemma close_run st :
  close lib st =
    if _handle st =? 0 then (Ok tt, st)
    else (Ok tt, released st [CallClose (_handle st)]
                   (snd (NovusDB_close lib (_handle st) (engine st)))).
Proof.
  run. destruct (_handle st =? 0); cbn; [reflexivity|].
  destruct (NovusDB_close lib (_handle st) (engine st)); reflexivity.
Qed.

(** *** The handle is written by [close] only *)

Lemma exec_keeps_handle st sql :
  _handle (snd (exec lib json_loads sql st)) = _handle st.
Proof.
  destruct (encode_utf8 sql) as [q|] eqn:E.
  - rewrite (exec_run st sql q E). reflexivity.
  - rewrite (exec_unencodable st sql E). reflexivity.
Qed.

Lemma insert_json_keeps_handle st c j :
  _handle (snd (insert_json lib c j st)) = _handle st.
Proof.
  destruct (encode_utf8 c) as [cb|] eqn:Ec;
    [destruct (encode_utf8 j) as [jb|] eqn:Ej|].
  - rewrite (insert_json_run st c j cb jb Ec Ej). cbn.
    destruct (c_longlong _ <? 0); reflexivity.
  - rewrite insert_json_unencodable by (right; exact Ej). reflexivity.
  - rewrite insert_json_unencodable by (left; exact Ec). reflexivity.
Qed.

Lemma close_clears_handle st : _handle (snd (close lib st)) = 0.
Proof.
  rewrite close_run. destruct (_handle st =? 0) eqn:E; cbn; [|reflexivity].
  apply Z.eqb_eq. exact E.
Qed.

Lemma close_when_closed st :
  _handle st = 0 -> close lib st = (Ok tt, st).
Proof. intros H. rewrite close_run, H. reflexivity. Qed.

Lemma close_when_open st :
  _handle st <> 0 ->
  close lib st =
    (Ok tt, released st [CallClose (_handle st)]
              (snd (NovusDB_close lib (_handle st) (engine st)))).
Proof.
  intros H. rewrite close_run.
  destruct (_handle st =? 0) eqn:E; [|reflexivity].
  apply Z.eqb_eq in E. contradiction.
Qed.

Lemma run_closer_is_close c : run_closer lib c = close lib.
Proof. destruct c; reflexivity. Qed.

Lemma run_closers_when_closed cs st :
  _handle st = 0 ->
  run_closers lib cs st = (repeat (Ok tt) (List.length cs), st).
Proof.
  intros H. induction cs as [|c cs IH]; [reflexivity|].
  cbn [run_closers]. rewrite run_closer_is_close, close_when_closed by exact H.
  rewrite IH. reflexivity.
Qed.

(** Every operation leaves the handle as it was or clears it. *)
Lemma step_handle st o :
  _handle (step lib json_loads st o) =
    match o with
    | OpClose | OpExit | OpDel => 0
    | _ => _handle st
    end.
Proof.
  destruct o; cbn [step].
  - apply exec_keeps_handle.
  - apply insert_json_keeps_handle.
  - rewrite collections_run. reflexivity.
  - rewrite last_error_run. reflexivity.
  - rewrite dump_run. reflexivity.
  - apply close_clears_handle.
  - reflexivity.
  - apply close_clears_handle.
  - apply close_clears_handle.
Qed.

Lemma envelope_object raw text d :
  decode_utf8 raw = Some text ->
  json_loads text = Ok (VDict d) ->
  envelope json_loads (Some raw) =
    match dict_get (py "error") d with
    | Some message => Raise (QueryError message)
    | None => Ok (VDict d)
    end.
Proof.
  intros Ed El. unfold envelope. rewrite Ed, El.
  cbn [py_in py_getitem]. unfold dict_has.
  destruct (dict_get (py "error") d); reflexivity.
Qed.

Lemma steps_track_phase ops : forall st p,
  (_handle st <> 0 <-> p = Open) ->
  (_handle (steps lib json_loads ops st) <> 0
   <-> fold_left spec_phase_step ops p = Open).
Proof.
  induction ops as [|o ops IH]; intros st p H; [exact H|].
  cbn [steps fold_left]. apply IH. rewrite step_handle.
  destruct o; cbn [spec_phase_step]; try exact H;
    (split; [intros N; contradiction N; reflexivity | discriminate]).
Qed.

Lemma steps_when_closed ops st :
  _handle st = 0 -> _handle (steps lib json_loads ops st) = 0.
Proof.
  revert st. induction ops as [|o ops IH]; intros st H; [exact H|].
  cbn. apply IH. rewrite step_handle. destruct o; auto.
Qed.

End Runs.

(** ** The scenario of the specification

    Open [t.db] and get handle 7, insert a row, select it, close, and then
    execute once more: the call log shows the four calls made while the
    connection is open, the last one releasing handle 7, and a fifth call
    made after the close, with the zero handle. *)
Example scenario_call_log :
  calls
    (steps scripted json_loads_ref
       [OpExec (pyq "INSERT INTO users VALUES (name='Alice', age=30)");
        OpExec (py "SELECT * FROM users");
        OpClose;
        OpExec (py "SELECT * FROM users")]
       (snd (__init__ scripted (py "t.db")
               (conn 0
                  [RInt 7;
                   RPtr (Some (lit "{'docs': [], 'rows_affected': 1, 'last_insert_id': 1}"));
                   RPtr (Some (lit "{'docs': [{'name': 'Alice', 'age': 30, '_id': 1}], 'rows_affected': 0, 'last_insert_id': 0}"));
                   RInt 0;
                   RPtr (Some (lit "{'error': 'invalid handle'}"))]))))
  = [CallOpen (lit "t.db");
     CallExec 7 (lit "INSERT INTO users VALUES (name='Alice', age=30)");
     CallExec 7 (lit "SELECT * FROM users");
     CallClose 7;
     CallExec 0 (lit "SELECT * FROM users")].
Proof. vm_compute. reflexivity. Qed.

(** ** Operations on a closed connection *)

(** C1 as stated does not hold.  The connection below is closed (its handle
    is zero) and the engine is ready to answer one call with a success
    envelope: [exec] does not fail, it passes the zero handle to
    [NovusDB_exec] and returns the decoded envelope. *)
Lemma closed_exec_reaches_engine :
  _handle (conn 0 [RPtr (Some (lit "{'docs': [], 'rows_affected': 0, 'last_insert_id': 0}"))]) = 0
  /\ exec scripted json_loads_ref (py "SELECT * FROM users")
       (conn 0 [RPtr (Some (lit "{'docs': [], 'rows_affected': 0, 'last_insert_id': 0}"))])
     = (Ok (VDict [(py "docs", VList []);
                   (py "rows_affected", VInt 0);
                   (py "last_insert_id", VInt 0)]),
        {| _handle := 0;
           calls := [CallExec 0 (lit "SELECT * FROM users")];
           engine := [] |}).
Proof. split; vm_compute; reflexivity. Qed.

(** C1, amended.  No method looks at the handle before using it.  On a
    closed connection [collections], [dump] and [last_error] each make
    exactly one foreign call, with the zero handle as argument.  [exec] and
    [insert_json] first encode their text: a text that cannot be encoded
    raises [UnicodeEncodeError] before any call and leaves the state as it
    was; otherwise [exec] makes exactly one call with the zero handle, and
    [insert_json] one, followed by one to [NovusDB_error] when the returned
    id is negative.  The outcome is what the decoding of the reply gives,
    and the handle stays zero. *)
Theorem closed_operations_call_engine {W} (lib : Lib W)
    (json_loads : str -> result value) (st : State) :
  _handle st = 0 ->
  (forall sql,
     match encode_utf8 sql with
     | Some q =>
         exec lib json_loads sql st =
           (envelope json_loads (fst (NovusDB_exec lib 0 q (engine st))),
            released st [CallExec 0 q]
              (snd (NovusDB_exec lib 0 q (engine st))))
     | None => exec lib json_loads sql st = (Raise UnicodeEncodeError, st)
     end)
  /\ (forall c j,
        match encode_utf8 c, encode_utf8 j with
        | Some cb, Some jb =>
            let r := NovusDB_insert_json lib 0 cb jb (engine st) in
            let e := NovusDB_error lib 0 (snd r) in
            insert_json lib c j st =
              if c_longlong (fst r) <? 0 then
                (match text_or_empty (fst e) with
                 | Ok err => Raise (InsertError (insert_message err))
                 | Raise x => Raise x
                 end,
                 released st [CallInsertJson 0 cb jb; CallError 0] (snd e))
              else (Ok (c_longlong (fst r)),
                    released st [CallInsertJson 0 cb jb] (snd r))
        | _, _ => insert_json lib c j st = (Raise UnicodeEncodeError, st)
        end)
  /\ collections lib json_loads st =
       (name_list json_loads (fst (NovusDB_collections lib 0 (engine st))),
        released st [CallCollections 0]
          (snd (NovusDB_collections lib 0 (engine st))))
  /\ dump lib st =
       (text_or_empty (fst (NovusDB_dump lib 0 (engine st))),
        released st [CallDump 0] (snd (NovusDB_dump lib 0 (engine st))))
  /\ last_error lib st =
       (text_or_empty (fst (NovusDB_error lib 0 (engine st))),
        released st [CallError 0] (snd (NovusDB_error lib 0 (engine st)))).
Proof.
  intros H.
  assert (L : forall cs w, logged st cs w = released st cs w).
  { intros cs w. unfold logged, released. rewrite H. reflexivity. }
  split; [|split; [|split; [|split]]].
  - intros sql. destruct (encode_utf8 sql) as [q|] eqn:E.
    + rewrite (exec_run lib json_loads st sql q E).
      cbn zeta. rewrite H, L. reflexivity.
    + apply exec_unencodable. exact E.
  - intros c j.
    destruct (encode_utf8 c) as [cb|] eqn:Ec;
      [destruct (encode_utf8 j) as [jb|] eqn:Ej|].
    + rewrite (insert_json_run lib st c j cb jb Ec Ej).
      cbn zeta. rewrite H, !L. reflexivity.
    + apply insert_json_unencodable. right. exact Ej.
    + apply insert_json_unencodable. left. exact Ec.
  - rewrite collections_run. cbn zeta. rewrite H, L. reflexivity.
  - rewrite dump_run. cbn zeta. rewrite H, L. reflexivity.
  - rewrite last_error_run. cbn zeta. rewrite H, L. reflexivity.
Qed.

Lemma closed_operations_call_engine_witness :
  _handle (conn 0 [RPtr (Some (lit "CREATE"))]) = 0
  /\ dump scripted (conn 0 [RPtr (Some (lit "CREATE"))])
     = (Ok (py "CREATE"),
        {| _handle := 0; calls := [CallDump 0]; engine := [] |}).
Proof.
  split; [reflexivity|].
  exact (proj1 (proj2 (proj2 (proj2
           (closed_operations_call_engine scripted json_loads_ref
              (conn 0 [RPtr (Some (lit "CREATE"))]) eq_refl))))).
Defined.

(** ** Closing *)

(** X9.  On an object that has its handle (the constructor got as far as
    line 106), [close] never raises, however it is invoked (directly, by
    [__exit__] or by [__del__]).  In any non-empty sequence of invocations on
    an open connection the first one makes the single call to
    [NovusDB_close], with the handle, and clears the handle; the later ones
    change nothing: the state after the whole sequence is the state after
    its first invocation.  On a connection that is already closed no call is
    made at all. *)
Theorem close_idempotent {W} (lib : Lib W) (st : State)
    (c : Closer) (cs : list Closer) :
  (_handle st <> 0 ->
     run_closers lib (c :: cs) st =
       (repeat (Ok tt) (S (List.length cs)),
        released st [CallClose (_handle st)]
          (snd (NovusDB_close lib (_handle st) (engine st))))
     /\ List.length (filter is_close (calls (snd (run_closers lib (c :: cs) st))))
        = S (List.length (filter is_close (calls st))))
  /\ (_handle st = 0 ->
        run_closers lib (c :: cs) st = (repeat (Ok tt) (S (List.length cs)), st)).
Proof.
  split.
  - intros H.
    assert (E : run_closers lib (c :: cs) st =
                (repeat (Ok tt) (S (List.length cs)),
                 released st [CallClose (_handle st)]
                   (snd (NovusDB_close lib (_handle st) (engine st))))).
    { cbn [run_closers]. rewrite run_closer_is_close.
      rewrite (close_when_open lib st H).
      rewrite run_closers_when_closed by reflexivity. reflexivity. }
    split; [exact E|].
    rewrite E. cbn [snd released calls].
    rewrite filter_app, length_app. cbn. lia.
  - intros H. apply (run_closers_when_closed lib (c :: cs) st H).
Qed.

Lemma close_idempotent_witness :
  _handle (conn 7 [RInt 0; RInt 0; RInt 0]) <> 0
  /\ run_closers scripted [ByClose; ByExit; ByDel] (conn 7 [RInt 0; RInt 0; RInt 0])
     = ([Ok tt; Ok tt; Ok tt],
        {| _handle := 0; calls := [CallClose 7]; engine := [RInt 0; RInt 0] |})
  /\ _handle (conn 0 [RInt 0]) = 0
  /\ run_closers scripted [ByClose; ByClose] (conn 0 [RInt 0])
     = ([Ok tt; Ok tt], conn 0 [RInt 0]).
Proof.
  assert (N : _handle (conn 7 [RInt 0; RInt 0; RInt 0]) <> 0)
    by (cbn; discriminate).
  split; [|split; [|split]].
  - exact N.
  - exact (proj1 (proj1 (close_idempotent scripted
                           (conn 7 [RInt 0; RInt 0; RInt 0])
                           ByClose [ByExit; ByDel]) N)).
  - reflexivity.
  - exact (proj2 (close_idempotent scripted (conn 0 [RInt 0])
                    ByClose [ByClose]) eq_refl).
Defined.

(** The constructor on a fresh object agrees with [__init__] from line 105
    on. *)
Lemma construct_assigned {W} os (cdll : str -> option (Lib W)) path lib_path
    log (w : W) file lib p :
  lib_file os lib_path = Done file ->
  cdll file = Some lib ->
  encode_utf8 path = Some p ->
  forall h,
    construct os cdll path lib_path log w =
      (match fst (__init__ lib path
                    {| _handle := h; calls := log; engine := w |}) with
       | Ok _ => Done tt
       | Raise e => Fail (DriverError e)
       end,
       Assigned lib
         (snd (__init__ lib path
                 {| _handle := h; calls := log; engine := w |}))).
Proof.
  intros F L E h. unfold construct. rewrite F, L, E.
  rewrite (init_run lib _ path p E). cbn.
  destruct (NovusDB_open lib p w) as [r w']. cbn.
  destruct (c_longlong r =? 0); reflexivity.
Qed.

(** C2.  The claim fails on an object whose constructor raised before line
    106.  When the constructor ends with anything but [OpenError] (the
    library was not found or did not load, or the path could not be
    encoded), the object has no [_handle]; the interpreter finalizes it, and
    [__del__], that is [close], raises [AttributeError] at line 160.  So do
    [close] and [__exit__] on such an object.  No foreign call is made. *)
Theorem finalizer_raises_without_handle {W} (os : Os)
    (cdll : str -> option (Lib W)) (path : str) (lib_path : option str)
    (log : list Call) (w : W) (e : pyexn) (o : Instance W) :
  construct os cdll path lib_path log w = (Fail e, o) ->
  e <> DriverError (OpenError path) ->
  invoke __del__ o = (Raise AttributeError, o)
  /\ invoke close o = (Raise AttributeError, o)
  /\ invoke __exit__ o = (Raise AttributeError, o)
  /\ exists loaded, o = Unassigned loaded log w.
Proof.
  unfold construct. intros C N.
  assert (U : forall loaded,
            o = Unassigned loaded log w ->
            invoke __del__ o = (Raise AttributeError, o)
            /\ invoke close o = (Raise AttributeError, o)
            /\ invoke __exit__ o = (Raise AttributeError, o)
            /\ exists loaded', o = Unassigned loaded' log w).
  { intros loaded ->. repeat split. exists loaded. reflexivity. }
  destruct (lib_file os lib_path) as [file|e0].
  - destruct (cdll file) as [lib|].
    + destruct (encode_utf8 path) as [p|].
      * destruct (NovusDB_open lib p w) as [r w'].
        cbv zeta in C.
        destruct (c_longlong r =? 0); [|discriminate].
        injection C as Ee _. exfalso. apply N. symmetry. exact Ee.
      * injection C as _ Eo. apply (U (Some lib)). symmetry. exact Eo.
    + injection C as _ Eo. apply (U None). symmetry. exact Eo.
  - injection C as _ Eo. apply (U None). symmetry. exact Eo.
Qed.

Lemma finalizer_raises_without_handle_witness :
  construct (listed_os (py "Linux") (py "/app") (py "/home/u") [])
    (load_only (py "/app/libNovusDB.so")) (py "t.db") None [] [RInt 7]
  = (Fail (FileNotFoundError
             [py "libNovusDB.so"; py "NovusDB.so"]
             [py "/app"; py "/app/../c"; py "/app/.."; py "/home/u"]),
     Unassigned None [] [RInt 7])
  /\ invoke __del__ (Unassigned None [] [RInt 7] : Instance Script)
     = (Raise AttributeError, Unassigned None [] [RInt 7]).
Proof.
  assert (C : construct (listed_os (py "Linux") (py "/app") (py "/home/u") [])
                (load_only (py "/app/libNovusDB.so")) (py "t.db") None
                [] [RInt 7]
              = (Fail (FileNotFoundError
                         [py "libNovusDB.so"; py "NovusDB.so"]
                         [py "/app"; py "/app/../c"; py "/app/..";
                          py "/home/u"]),
                 Unassigned None [] [RInt 7]))
    by (vm_compute; reflexivity).
  split; [exact C|].
  exact (proj1 (finalizer_raises_without_handle _ _ _ _ _ _ _ _ C
                  ltac:(discriminate))).
Defined.

(** C6 as stated does not hold.  The engine answers the release of handle 7
    with status 1: [close] clears the handle and returns normally; the
    status is read and dropped, nothing is raised. *)
Lemma close_drops_status :
  c_int (fst (NovusDB_close scripted 7 [RInt 1])) = 1
  /\ close scripted (conn 7 [RInt 1])
     = (Ok tt, {| _handle := 0; calls := [CallClose 7]; engine := [] |}).
Proof. split; vm_compute; reflexivity. Qed.

(** C6, amended.  On an open connection whose release reports a non-zero
    status, [close] still makes the connection closed (the handle becomes
    zero) and returns normally: the status is not looked at and no error
    reaches the caller. *)
Theorem close_ignores_status {W} (lib : Lib W) (st : State) :
  _handle st <> 0 ->
  c_int (fst (NovusDB_close lib (_handle st) (engine st))) <> 0 ->
  close lib st =
    (Ok tt, released st [CallClose (_handle st)]
              (snd (NovusDB_close lib (_handle st) (engine st))))
  /\ _handle (snd (close lib st)) = 0.
Proof.
  intros H _. split.
  - apply close_when_open. exact H.
  - apply close_clears_handle.
Qed.

Lemma close_ignores_status_witness :
  _handle (conn 7 [RInt 1]) <> 0
  /\ c_int (fst (NovusDB_close scripted 7 [RInt 1])) <> 0
  /\ close scripted (conn 7 [RInt 1])
     = (Ok tt, {| _handle := 0; calls := [CallClose 7]; engine := [] |}).
Proof.
  assert (N : _handle (conn 7 [RInt 1]) <> 0) by (cbn; discriminate).
  assert (S : c_int (fst (NovusDB_close scripted (_handle (conn 7 [RInt 1]))
                            (engine (conn 7 [RInt 1])))) <> 0)
    by (vm_compute; discriminate).
  split; [exact N|]. split; [exact S|].
  exact (proj1 (close_ignores_status scripted (conn 7 [RInt 1]) N S)).
Defined.

(** ** The handle and the state machine *)

(** C3.  Along the life of a connection (the constructor, then any
    operations, whether they return or raise) the handle is non-zero exactly
    when the state machine of the specification is in [Open]: it is non-zero
    after the constructor exactly when the constructor succeeded, every
    operation other than a close leaves it as it is, and a close makes it
    zero.  Once [close] has run the handle is zero after any further
    operations: none of them writes a non-zero handle. *)
Theorem handle_nonzero_iff_open {W} (lib : Lib W)
    (json_loads : str -> result value) (st : State)
    (path : str) (p : bytes) (ops : list Op) :
  encode_utf8 path = Some p ->
  (_handle (steps lib json_loads ops (snd (__init__ lib path st))) <> 0
   <-> fold_left spec_phase_step ops
         (spec_phase_after_open (succeeded (fst (__init__ lib path st))))
       = Open)
  /\ (forall (st' : State) (more : list Op),
        _handle (steps lib json_loads more (snd (close lib st'))) = 0).
Proof.
  intros E. split.
  - apply steps_track_phase.
    rewrite (init_run lib st path p E). cbn.
    destruct (c_longlong (fst (NovusDB_open lib p (engine st))) =? 0) eqn:Z;
      cbn.
    + apply Z.eqb_eq in Z. split; [intros N; contradiction|discriminate].
    + apply Z.eqb_neq in Z. split; [reflexivity|intros _; exact Z].
  - intros st' more. apply steps_when_closed. apply close_clears_handle.
Qed.

Lemma handle_nonzero_iff_open_witness :
  encode_utf8 (py "t.db") = Some (lit "t.db")
  /\ _handle (steps scripted json_loads_ref
                [OpExec (py "SELECT 1"); OpDump]
                (snd (__init__ scripted (py "t.db")
                        (conn 0 [RInt 7; RPtr None; RPtr None])))) <> 0.
Proof.
  assert (E : encode_utf8 (py "t.db") = Some (lit "t.db"))
    by (vm_compute; reflexivity).
  split; [exact E|].
  apply (proj1 (handle_nonzero_iff_open scripted json_loads_ref
                  (conn 0 [RInt 7; RPtr None; RPtr None])
                  (py "t.db") (lit "t.db")
                  [OpExec (py "SELECT 1"); OpDump] E)).
  vm_compute. reflexivity.
Defined.

(** ** Opening *)

(** C8.  For every path, the constructor raises [OpenError] exactly when
    [NovusDB_open] is called and returns the zero handle; when it returns a
    non-zero handle the constructor succeeds and the connection holds that
    handle.  (A path that cannot be encoded never reaches the engine.) *)
Theorem open_error_iff_zero_handle {W} (lib : Lib W) (st : State)
    (path : str) :
  (fst (__init__ lib path st) = Raise (OpenError path)
   <-> exists p, encode_utf8 path = Some p
                 /\ c_longlong (fst (NovusDB_open lib p (engine st))) = 0)
  /\ (forall p, encode_utf8 path = Some p ->
        c_longlong (fst (NovusDB_open lib p (engine st))) <> 0 ->
        fst (__init__ lib path st) = Ok tt
        /\ _handle (snd (__init__ lib path st))
           = c_longlong (fst (NovusDB_open lib p (engine st)))).
Proof.
  split.
  - destruct (encode_utf8 path) as [p|] eqn:E.
    + rewrite (init_run lib st path p E). cbn.
      destruct (c_longlong (fst (NovusDB_open lib p (engine st))) =? 0) eqn:Z.
      * apply Z.eqb_eq in Z. split; [|reflexivity].
        intros _. exists p. split; [reflexivity|exact Z].
      * apply Z.eqb_neq in Z. split; [discriminate|].
        intros [p' [Ep Hp]]. injection Ep as <-. contradiction.
    + rewrite (init_unencodable lib st path E). cbn.
      split; [discriminate|]. intros [p' [Ep _]]. discriminate.
  - intros p E Z. rewrite (init_run lib st path p E). cbn.
    apply Z.eqb_neq in Z. rewrite Z. split; reflexivity.
Qed.

Lemma open_error_iff_zero_handle_witness :
  fst (__init__ scripted (py "missing.dlite") (conn 0 [RInt 0]))
    = Raise (OpenError (py "missing.dlite"))
  /\ fst (__init__ scripted (py "t.db") (conn 0 [RInt 7])) = Ok tt
  /\ _handle (snd (__init__ scripted (py "t.db") (conn 0 [RInt 7]))) = 7.
Proof.
  split.
  - apply (proj1 (open_error_iff_zero_handle scripted (conn 0 [RInt 0])
                    (py "missing.dlite"))).
    exists (lit "missing.dlite"). split; vm_compute; reflexivity.
  - assert (E : encode_utf8 (py "t.db") = Some (lit "t.db"))
      by (vm_compute; reflexivity).
    assert (Z : c_longlong (fst (NovusDB_open scripted (lit "t.db")
                                   (engine (conn 0 [RInt 7])))) <> 0)
      by (vm_compute; discriminate).
    exact (proj2 (open_error_iff_zero_handle scripted (conn 0 [RInt 7])
                    (py "t.db")) (lit "t.db") E Z).
Defined.

(** ** Executing a statement *)

(** C4 as stated does not hold.  The first envelope below is an object with
    a [message] key: [exec] raises nothing and returns the object, since
    only the key [error] is looked for.  The second is a JSON string, which
    has no key at all: the test of line 122 is then a substring test, it
    succeeds, and the subscript of line 123 raises [TypeError], which is not
    a [QueryError]. *)
Lemma exec_ignores_message_key :
  exec scripted json_loads_ref (py "SELEC")
    (conn 7 [RPtr (Some (lit "{'message': 'syntax error'}"))])
  = (Ok (VDict [(py "message", VStr (py "syntax error"))]),
     {| _handle := 7; calls := [CallExec 7 (lit "SELEC")]; engine := [] |})
  /\ exec scripted json_loads_ref (py "SELEC")
       (conn 7 [RPtr (Some (lit "'syntax error'"))])
     = (Raise TypeError,
        {| _handle := 7; calls := [CallExec 7 (lit "SELEC")]; engine := [] |}).
Proof. split; vm_compute; reflexivity. Qed.

(** C4, amended.  For every connection and every statement, when the
    envelope decodes to an object: [exec] raises [QueryError] exactly when
    the object has the key [error] (a key [message] is not looked for), and
    the error carries the value under that key as it was decoded; otherwise
    [exec] returns the decoded object unchanged.  Nothing else is raised. *)
Theorem exec_query_error_iff_error_key {W} (lib : Lib W)
    (json_loads : str -> result value) (st : State)
    (sql : str) (q raw : bytes) (text : str) (d : list (str * value)) :
  encode_utf8 sql = Some q ->
  fst (NovusDB_exec lib (_handle st) q (engine st)) = Some raw ->
  decode_utf8 raw = Some text ->
  json_loads text = Ok (VDict d) ->
  (forall message,
     fst (exec lib json_loads sql st) = Raise (QueryError message)
     <-> dict_get (py "error") d = Some message)
  /\ (fst (exec lib json_loads sql st) = Ok (VDict d)
      <-> dict_get (py "error") d = None)
  /\ (forall e, fst (exec lib json_loads sql st) = Raise e ->
        exists message, e = QueryError message).
Proof.
  intros Eq Er Ed El.
  rewrite (exec_run lib json_loads st sql q Eq). cbn [fst]. rewrite Er.
  rewrite (envelope_object json_loads raw text d Ed El).
  destruct (dict_get (py "error") d) as [m|].
  - split; [|split].
    + intros message. unfold QueryError. split; congruence.
    + split; discriminate.
    + intros e H. exists m. congruence.
  - split; [|split].
    + intros message. split; discriminate.
    + split; reflexivity.
    + intros e H. discriminate.
Qed.

Lemma exec_query_error_iff_error_key_witness :
  encode_utf8 (py "SELEC") = Some (lit "SELEC")
  /\ json_loads_ref (pyq "{'error': 'syntax error'}")
     = Ok (VDict [(py "error", VStr (py "syntax error"))])
  /\ fst (exec scripted json_loads_ref (py "SELEC")
            (conn 7 [RPtr (Some (lit "{'error': 'syntax error'}"))]))
     = Raise (QueryError (VStr (py "syntax error"))).
Proof.
  assert (Eq : encode_utf8 (py "SELEC") = Some (lit "SELEC"))
    by (vm_compute; reflexivity).
  assert (El : json_loads_ref (pyq "{'error': 'syntax error'}")
               = Ok (VDict [(py "error", VStr (py "syntax error"))]))
    by (vm_compute; reflexivity).
  split; [exact Eq|]. split; [exact El|].
  apply (proj1 (exec_query_error_iff_error_key scripted json_loads_ref
                  (conn 7 [RPtr (Some (lit "{'error': 'syntax error'}"))])
                  (py "SELEC") (lit "SELEC")
                  (lit "{'error': 'syntax error'}")
                  (pyq "{'error': 'syntax error'}")
                  [(py "error", VStr (py "syntax error"))]
                  Eq eq_refl ltac:(vm_compute; reflexivity) El)).
  vm_compute. reflexivity.
Defined.

(** C5 as stated does not hold.  The envelope below is an object without an
    [error] key in which [docs] is a string and the two other success fields
    are missing: [exec] raises nothing and returns the object. *)
Lemma exec_returns_incomplete_envelope :
  exec scripted json_loads_ref (py "SELECT 1")
    (conn 7 [RPtr (Some (lit "{'docs': 'oops'}"))])
  = (Ok (VDict [(py "docs", VStr (py "oops"))]),
     {| _handle := 7; calls := [CallExec 7 (lit "SELECT 1")]; engine := [] |}).
Proof. vm_compute. reflexivity. Qed.

(** C5, amended.  The driver has no error of its own for an envelope it
    cannot decode: the failure of the decoding step is what is raised.  For
    every envelope returned by the native call, [exec] raises
    [AttributeError] when it is the null pointer, [UnicodeDecodeError] when
    it is not valid UTF-8, and, when [json.loads] raises on its text
    ([JSONDecodeError] on malformed JSON), that same exception.  None of
    these three is a [QueryError].  When the envelope decodes to an object
    without an [error] key, [exec] returns the object as it is, whatever
    fields it has: [docs], [rows_affected] and [last_insert_id] are neither
    required nor checked. *)
Theorem exec_decode_error_or_object {W} (lib : Lib W)
    (json_loads : str -> result value) (st : State) (sql : str) (q : bytes) :
  encode_utf8 sql = Some q ->
  (fst (NovusDB_exec lib (_handle st) q (engine st)) = None ->
   fst (exec lib json_loads sql st) = Raise AttributeError)
  /\ (forall raw,
        fst (NovusDB_exec lib (_handle st) q (engine st)) = Some raw ->
        decode_utf8 raw = None ->
        fst (exec lib json_loads sql st) = Raise UnicodeDecodeError)
  /\ (forall raw text e,
        fst (NovusDB_exec lib (_handle st) q (engine st)) = Some raw ->
        decode_utf8 raw = Some text ->
        json_loads text = Raise e ->
        fst (exec lib json_loads sql st) = Raise e)
  /\ (forall raw text d,
        fst (NovusDB_exec lib (_handle st) q (engine st)) = Some raw ->
        decode_utf8 raw = Some text ->
        json_loads text = Ok (VDict d) ->
        dict_get (py "error") d = None ->
        fst (exec lib json_loads sql st) = Ok (VDict d))
  /\ (forall message,
        AttributeError <> QueryError message
        /\ UnicodeDecodeError <> QueryError message
        /\ JSONDecodeError <> QueryError message).
Proof.
  intros Eq.
  rewrite (exec_run lib json_loads st sql q Eq). cbn [fst].
  split; [|split; [|split; [|split]]].
  - intros ->. reflexivity.
  - intros raw -> Ed. unfold envelope. rewrite Ed. reflexivity.
  - intros raw text e -> Ed El. unfold envelope. rewrite Ed, El. reflexivity.
  - intros raw text d -> Ed El Hd.
    rewrite (envelope_object json_loads raw text d Ed El), Hd. reflexivity.
  - intros message. repeat split; discriminate.
Qed.

Lemma exec_decode_error_or_object_witness :
  encode_utf8 (py "SELECT 1") = Some (lit "SELECT 1")
  /\ decode_utf8 (lit "{'docs': [") = Some (pyq "{'docs': [")
  /\ json_loads_ref (pyq "{'docs': [") = Raise JSONDecodeError
  /\ fst (exec scripted json_loads_ref (py "SELECT 1")
            (conn 7 [RPtr (Some (lit "{'docs': ["))]))
     = Raise JSONDecodeError.
Proof.
  assert (Eq : encode_utf8 (py "SELECT 1") = Some (lit "SELECT 1"))
    by (vm_compute; reflexivity).
  assert (Ed : decode_utf8 (lit "{'docs': [") = Some (pyq "{'docs': ["))
    by (vm_compute; reflexivity).
  assert (El : json_loads_ref (pyq "{'docs': [") = Raise JSONDecodeError)
    by (vm_compute; reflexivity).
  split; [exact Eq|]. split; [exact Ed|]. split; [exact El|].
  exact (proj1 (proj2 (proj2 (exec_decode_error_or_object scripted
                                json_loads_ref
                                (conn 7 [RPtr (Some (lit "{'docs': ["))])
                                (py "SELECT 1") (lit "SELECT 1") Eq)))
           (lit "{'docs': [") (pyq "{'docs': [") JSONDecodeError
           eq_refl Ed El).
Defined.

(** ** Inserting a document *)

(** C7 as stated does not hold.  The engine refuses the insert with id -1
    and has no error text to give (the empty string): the error raised does
    not carry that text but the fixed text of line 140. *)
Lemma insert_json_falls_back_on_fixed_text :
  text_or_empty (fst (NovusDB_error scripted 7 [RPtr (Some [])])) = Ok []
  /\ insert_json scripted (py "users") (py "{}")
       (conn 7 [RInt (-1); RPtr (Some [])])
     = (Raise (InsertError (py "insert_json failed")),
        {| _handle := 7;
           calls := [CallInsertJson 7 (lit "users") (lit "{}"); CallError 7];
           engine := [] |}).
Proof. split; vm_compute; reflexivity. Qed.

(** C7, amended.  For every connection, collection name and document text:
    when the engine returns a non-negative id, [insert_json] returns that id
    unchanged; when it returns a negative id, [insert_json] asks the engine
    for its error text and raises [InsertError], carrying that text when it
    is not empty and the fixed text [insert_json failed] when the engine
    gives a null pointer or the empty string.  [InsertError] is raised only
    on a negative id.  (The error text is assumed to be decodable.) *)
Theorem insert_json_error_iff_negative {W} (lib : Lib W) (st : State)
    (c j : str) (cb jb : bytes) (err : str) :
  encode_utf8 c = Some cb ->
  encode_utf8 j = Some jb ->
  text_or_empty
    (fst (NovusDB_error lib (_handle st)
            (snd (NovusDB_insert_json lib (_handle st) cb jb (engine st)))))
    = Ok err ->
  let doc_id :=
    c_longlong (fst (NovusDB_insert_json lib (_handle st) cb jb (engine st))) in
  ((exists message, fst (insert_json lib c j st) = Raise (InsertError message))
   <-> doc_id < 0)
  /\ (doc_id < 0 -> err <> [] ->
        fst (insert_json lib c j st) = Raise (InsertError err))
  /\ (doc_id < 0 -> err = [] ->
        fst (insert_json lib c j st)
          = Raise (InsertError (py "insert_json failed")))
  /\ (0 <= doc_id -> fst (insert_json lib c j st) = Ok doc_id).
Proof.
  intros Ec Ej Ee doc_id.
  rewrite (insert_json_run lib st c j cb jb Ec Ej). cbn zeta.
  fold doc_id.
  destruct (doc_id <? 0) eqn:Z; cbn [fst]; [rewrite Ee|].
  - apply Z.ltb_lt in Z. split; [|split; [|split]].
    + split; [intros _; exact Z|]. intros _. eexists. reflexivity.
    + intros _ N. destruct err; [contradiction|reflexivity].
    + intros _ ->. reflexivity.
    + lia.
  - apply Z.ltb_ge in Z. split; [|split; [|split]].
    + split; [intros [m H]; discriminate|lia].
    + lia.
    + lia.
    + reflexivity.
Qed.

Lemma insert_json_error_iff_negative_witness :
  encode_utf8 (py "users") = Some (lit "users")
  /\ encode_utf8 (py "{") = Some (lit "{")
  /\ text_or_empty (fst (NovusDB_error scripted 7 [RPtr (Some (lit "bad json"))]))
     = Ok (py "bad json")
  /\ fst (insert_json scripted (py "users") (py "{")
            (conn 7 [RInt (-1); RPtr (Some (lit "bad json"))]))
     = Raise (InsertError (py "bad json")).
Proof.
  assert (Ec : encode_utf8 (py "users") = Some (lit "users"))
    by (vm_compute; reflexivity).
  assert (Ej : encode_utf8 (py "{") = Some (lit "{"))
    by (vm_compute; reflexivity).
  assert (Ee : text_or_empty
                 (fst (NovusDB_error scripted 7 [RPtr (Some (lit "bad json"))]))
               = Ok (py "bad json"))
    by (vm_compute; reflexivity).
  split; [exact Ec|]. split; [exact Ej|]. split; [exact Ee|].
  apply (proj1 (proj2 (insert_json_error_iff_negative scripted
                         (conn 7 [RInt (-1); RPtr (Some (lit "bad json"))])
                         (py "users") (py "{") (lit "users") (lit "{")
                         (py "bad json") Ec Ej Ee))).
  - vm_compute. reflexivity.
  - vm_compute. discriminate.
Defined.

(** ** Failures leave the connection usable *)

(** C9.  On an open connection, when [exec] or [insert_json] raises — a
    [QueryError], an [InsertError] or anything else — the handle is what it
    was, hence still non-zero: the connection is still open, and the next
    operation passes the same handle to the engine. *)
Theorem failure_keeps_handle {W} (lib : Lib W)
    (json_loads : str -> result value) (st : State) :
  _handle st <> 0 ->
  (forall sql e,
     fst (exec lib json_loads sql st) = Raise e ->
     let st' := snd (exec lib json_loads sql st) in
     _handle st' = _handle st /\ _handle st' <> 0
     /\ forall next q, encode_utf8 next = Some q ->
          calls (snd (exec lib json_loads next st'))
            = calls st' ++ [CallExec (_handle st) q])
  /\ (forall c j e,
        fst (insert_json lib c j st) = Raise e ->
        let st' := snd (insert_json lib c j st) in
        _handle st' = _handle st /\ _handle st' <> 0
        /\ forall next q, encode_utf8 next = Some q ->
             calls (snd (exec lib json_loads next st'))
               = calls st' ++ [CallExec (_handle st) q]).
Proof.
  intros H. split.
  - intros sql e _ st'.
    assert (K : _handle st' = _handle st) by apply exec_keeps_handle.
    split; [exact K|]. split; [rewrite K; exact H|].
    intros next q E. rewrite (exec_run lib json_loads st' next q E).
    cbn. rewrite K. reflexivity.
  - intros c j e _ st'.
    assert (K : _handle st' = _handle st) by apply insert_json_keeps_handle.
    split; [exact K|]. split; [rewrite K; exact H|].
    intros next q E. rewrite (exec_run lib json_loads st' next q E).
    cbn. rewrite K. reflexivity.
Qed.

Lemma failure_keeps_handle_witness :
  _handle (conn 7 [RPtr (Some (lit "{'error': 'no such table'}"))]) <> 0
  /\ fst (exec scripted json_loads_ref (py "SELECT * FROM t")
            (conn 7 [RPtr (Some (lit "{'error': 'no such table'}"))]))
     = Raise (QueryError (VStr (py "no such table")))
  /\ _handle (snd (exec scripted json_loads_ref (py "SELECT * FROM t")
                     (conn 7 [RPtr (Some (lit "{'error': 'no such table'}"))])))
     = 7.
Proof.
  assert (N : _handle (conn 7 [RPtr (Some (lit "{'error': 'no such table'}"))])
              <> 0) by (cbn; discriminate).
  assert (F : fst (exec scripted json_loads_ref (py "SELECT * FROM t")
                     (conn 7 [RPtr (Some (lit "{'error': 'no such table'}"))]))
              = Raise (QueryError (VStr (py "no such table"))))
    by (vm_compute; reflexivity).
  split; [exact N|]. split; [exact F|].
  exact (proj1 (proj1 (failure_keeps_handle scripted json_loads_ref
                         (conn 7 [RPtr (Some (lit "{'error': 'no such table'}"))])
                         N)
                  (py "SELECT * FROM t")
                  (QueryError (VStr (py "no such table"))) F)).
Defined.

(** ** Null replies *)

(** C10.  For every connection, when [NovusDB_dump] returns the null pointer
    [dump] returns the empty string, and when [NovusDB_error] returns the
    null pointer [last_error] returns the empty string: neither raises. *)
Theorem null_reply_is_empty_text {W} (lib : Lib W) (st : State) :
  (fst (NovusDB_dump lib (_handle st) (engine st)) = None ->
   fst (dump lib st) = Ok [])
  /\ (fst (NovusDB_error lib (_handle st) (engine st)) = None ->
      fst (last_error lib st) = Ok []).
Proof.
  split; intros H.
  - rewrite dump_run. cbn [fst]. rewrite H. reflexivity.
  - rewrite last_error_run. cbn [fst]. rewrite H. reflexivity.
Qed.

Lemma null_reply_is_empty_text_witness :
  fst (NovusDB_dump scripted 7 [RPtr None]) = None
  /\ fst (dump scripted (conn 7 [RPtr None])) = Ok []
  /\ fst (NovusDB_error scripted 7 [RPtr None]) = None
  /\ fst (last_error scripted (conn 7 [RPtr None])) = Ok [].
Proof.
  split; [reflexivity|]. split; [|split; [reflexivity|]].
  - exact (proj1 (null_reply_is_empty_text scripted (conn 7 [RPtr None]))
             eq_refl).
  - exact (proj2 (null_reply_is_empty_text scripted (conn 7 [RPtr None]))
             eq_refl).
Defined.

(** * Beyond the connection: the search, the constructor, the command line *)

(** ** First match in a list *)

Section FirstMatch.

Context {A : Type}.
Variable f : A -> bool.

Lemma find_over_app (l1 l2 : list A) :
  find f (l1 ++ l2) =
    match find f l1 with
    | Some x => Some x
    | None => find f l2
    end.
Proof.
  induction l1 as [|a l1 IH]; [reflexivity|].
  cbn. destruct (f a); [reflexivity|exact IH].
Qed.

Lemma find_first (l : list A) (c : A) :
  find f l = Some c <->
  exists before after,
    l = before ++ c :: after
    /\ (forall x, In x before -> f x = false)
    /\ f c = true.
Proof.
  induction l as [|a l IH]; cbn.
  - split; [discriminate|].
    intros (before & after & E & _). destruct before; discriminate.
  - destruct (f a) eqn:Fa.
    + split.
      * intros [= <-]. exists [], l. repeat split; [intros x []|exact Fa].
      * intros (before & after & E & N & Fc).
        destruct before as [|b before]; cbn in E; injection E as Ea El.
        -- rewrite Ea. reflexivity.
        -- subst b. rewrite (N a (or_introl eq_refl)) in Fa. discriminate.
    + rewrite IH. split.
      * intros (before & after & -> & N & Fc).
        exists (a :: before), after. repeat split; [|exact Fc].
        intros x [<-|H]; [exact Fa|exact (N x H)].
      * intros (before & after & E & N & Fc).
        destruct before as [|b before]; cbn in E; injection E as Ea El.
        -- subst c. rewrite Fc in Fa. discriminate.
        -- exists before, after. repeat split; [exact El| |exact Fc].
           intros x H. apply N. right. exact H.
Qed.

Lemma find_nothing (l : list A) :
  find f l = None <-> forall x, In x l -> f x = false.
Proof.
  split; [apply find_none|].
  induction l as [|a l IH]; intros H; [reflexivity|].
  cbn. rewrite (H a (or_introl eq_refl)).
  apply IH. intros x Hx. apply H. right. exact Hx.
Qed.

End FirstMatch.

(** ** The search for the library *)

Lemma probe_names_find os d names :
  probe_names os d names =
    option_map (abspath os)
      (find (isfile os) (map (fun name => join os d [name]) names)).
Proof.
  induction names as [|name names IH]; [reflexivity|].
  cbn. destruct (isfile os (join os d [name])); [reflexivity|exact IH].
Qed.

Lemma probe_dirs_find os dirs names :
  probe_dirs os dirs names =
    option_map (abspath os)
      (find (isfile os)
         (flat_map (fun d => map (fun name => join os d [name]) names) dirs)).
Proof.
  induction dirs as [|d dirs IH]; [reflexivity|].
  cbn [probe_dirs flat_map]. rewrite find_over_app, probe_names_find, IH.
  destruct (find (isfile os) (map _ names)); reflexivity.
Qed.

Lemma find_library_find os :
  _find_library os =
    match find (isfile os) (candidates os) with
    | Some c => Done (abspath os c)
    | None =>
        Fail (FileNotFoundError (library_names (system os)) (search_paths os))
    end.
Proof.
  unfold _find_library, candidates. rewrite probe_dirs_find.
  destruct (find _ _); reflexivity.
Qed.

(** X1.  The search returns a path exactly when some candidate is a file,
    and what it returns is the absolute path of the first such candidate in
    the order it probes them (directory by directory and, within a
    directory, name by name): every candidate before it is not a file. *)
Theorem find_library_first_candidate (os : Os) (found : str) :
  _find_library os = Done found <->
  exists before c after,
    candidates os = before ++ c :: after
    /\ (forall x, In x before -> isfile os x = false)
    /\ isfile os c = true
    /\ found = abspath os c.
Proof.
  rewrite find_library_find. split.
  - destruct (find (isfile os) (candidates os)) as [c|] eqn:F; [|discriminate].
    intros [= <-]. apply find_first in F.
    destruct F as (before & after & E & N & Fc).
    exists before, c, after. repeat split; assumption.
  - intros (before & c & after & E & N & Fc & ->).
    assert (F : find (isfile os) (candidates os) = Some c).
    { apply find_first. exists before, after. repeat split; assumption. }
    rewrite F. reflexivity.
Qed.

Lemma find_library_first_candidate_witness :
  _find_library
    (listed_os (py "Linux") (py "/app/python") (py "/home/u")
       [py "/home/u/libNovusDB.so"; py "/app/python/../NovusDB.so"])
  = Done (py "/app/python/../NovusDB.so").
Proof.
  apply (proj2 (find_library_first_candidate
                  (listed_os (py "Linux") (py "/app/python") (py "/home/u")
                     [py "/home/u/libNovusDB.so";
                      py "/app/python/../NovusDB.so"])
                  (py "/app/python/../NovusDB.so"))).
  exists [py "/app/python/libNovusDB.so"; py "/app/python/NovusDB.so";
          py "/app/python/../c/libNovusDB.so"; py "/app/python/../c/NovusDB.so";
          py "/app/python/../libNovusDB.so"],
         (py "/app/python/../NovusDB.so"),
         [py "/home/u/libNovusDB.so"; py "/home/u/NovusDB.so"].
  split; [vm_compute; reflexivity|]. split; [|split; vm_compute; reflexivity].
  intros x H. cbn in H.
  repeat (destruct H as [<-|H]; [vm_compute; reflexivity|]). destruct H.
Defined.

(** X2.  The search raises [FileNotFoundError] exactly when no candidate is
    a file; the error carries the names and the directories that were
    tried. *)
Theorem find_library_fails_iff_no_candidate (os : Os) (e : pyexn) :
  _find_library os = Fail e <->
  (forall c, In c (candidates os) -> isfile os c = false)
  /\ e = FileNotFoundError (library_names (system os)) (search_paths os).
Proof.
  rewrite find_library_find. split.
  - destruct (find (isfile os) (candidates os)) eqn:F; [discriminate|].
    intros [= <-]. split; [|reflexivity].
    apply find_nothing. exact F.
  - intros [N ->]. apply find_nothing in N. rewrite N. reflexivity.
Qed.

Lemma find_library_fails_iff_no_candidate_witness :
  _find_library
    (listed_os (py "Windows") (py "C:\app") (py "C:\work")
       [py "C:\work/libNovusDB.so"])
  = Fail (FileNotFoundError
            [py "NovusDB.dll"]
            [py "C:\app"; py "C:\app/../c"; py "C:\app/.."; py "C:\work"]).
Proof.
  apply (proj2 (find_library_fails_iff_no_candidate
                  (listed_os (py "Windows") (py "C:\app") (py "C:\work")
                     [py "C:\work/libNovusDB.so"])
                  _)).
  split; [|vm_compute; reflexivity].
  intros c H. cbn in H.
  repeat (destruct H as [<-|H]; [vm_compute; reflexivity|]). destruct H.
Defined.

(** ** The constructor *)

Lemma c_longlong_range z : - 2 ^ 63 <= c_longlong z < 2 ^ 63.
Proof.
  unfold c_longlong.
  pose proof (Z.mod_pos_bound (z + 2 ^ 63) (2 ^ 64) ltac:(lia)). lia.
Qed.

Lemma lib_file_fail os lib_path e :
  lib_file os lib_path = Fail e ->
  e = FileNotFoundError (library_names (system os)) (search_paths os).
Proof.
  assert (F : _find_library os = Fail e ->
              e = FileNotFoundError (library_names (system os))
                    (search_paths os)).
  { rewrite find_library_find.
    destruct (find _ _); [discriminate|]. intros [= <-]. reflexivity. }
  destruct lib_path as [[|c rest]|]; cbn; try exact F. discriminate.
Qed.

Lemma constructor_done {W} os (cdll : str -> option (Lib W)) path lib_path
    (st : State) lib st' :
  NovusDB os cdll path lib_path st = (Done lib, st') ->
  exists file p,
    lib_file os lib_path = Done file
    /\ cdll file = Some lib
    /\ encode_utf8 path = Some p
    /\ c_longlong (fst (NovusDB_open lib p (engine st))) <> 0
    /\ st' = {| _handle := c_longlong (fst (NovusDB_open lib p (engine st)));
                calls := calls st ++ [CallOpen p];
                engine := snd (NovusDB_open lib p (engine st)) |}.
Proof.
  unfold NovusDB.
  destruct (lib_file os lib_path) as [file|]; [|discriminate].
  destruct (cdll file) as [l|] eqn:L; [|discriminate].
  destruct (encode_utf8 path) as [p|] eqn:E.
  - rewrite (init_run l st path p E). cbn zeta.
    destruct (c_longlong (fst (NovusDB_open l p (engine st))) =? 0) eqn:Z;
      [discriminate|].
    intros [= <- <-]. exists file, p. apply Z.eqb_neq in Z.
    repeat split; assumption.
  - rewrite (init_unencodable l st path E). discriminate.
Qed.

(** X3.  The constructor succeeds exactly when the library is located (or
    given), loads, the path can be encoded, and the engine returns a
    non-zero handle; the connection then holds that handle, and the open
    call is the only foreign call that was made. *)
Theorem constructor_succeeds_iff {W} (os : Os) (cdll : str -> option (Lib W))
    (path : str) (lib_path : option str) (st : State)
    (lib : Lib W) (st' : State) :
  NovusDB os cdll path lib_path st = (Done lib, st') <->
  exists file p,
    lib_file os lib_path = Done file
    /\ cdll file = Some lib
    /\ encode_utf8 path = Some p
    /\ c_longlong (fst (NovusDB_open lib p (engine st))) <> 0
    /\ st' = {| _handle := c_longlong (fst (NovusDB_open lib p (engine st)));
                calls := calls st ++ [CallOpen p];
                engine := snd (NovusDB_open lib p (engine st)) |}.
Proof.
  split; [apply constructor_done|].
  intros (file & p & F & L & E & Z & ->).
  unfold NovusDB. rewrite F, L, (init_run lib st path p E). cbn zeta.
  apply Z.eqb_neq in Z. rewrite Z. reflexivity.
Qed.

Lemma constructor_succeeds_iff_witness :
  NovusDB (listed_os (py "Linux") (py "/app") (py "/home/u")
             [py "/app/../c/libNovusDB.so"])
    (load_only (py "/app/../c/libNovusDB.so"))
    (py "t.db") None (conn 0 [RInt 7])
  = (Done scripted,
     {| _handle := 7; calls := [CallOpen (lit "t.db")]; engine := [] |}).
Proof.
  apply (proj2 (constructor_succeeds_iff
                  (listed_os (py "Linux") (py "/app") (py "/home/u")
                     [py "/app/../c/libNovusDB.so"])
                  (load_only (py "/app/../c/libNovusDB.so"))
                  (py "t.db") None (conn 0 [RInt 7]) scripted _)).
  exists (py "/app/../c/libNovusDB.so"), (lit "t.db").
  split; [vm_compute; reflexivity|]. split; [vm_compute; reflexivity|].
  split; [vm_compute; reflexivity|]. split; [vm_compute; discriminate|].
  vm_compute. reflexivity.
Defined.

(** X4.  When the constructor fails, one of four things happened.  The
    library was not found, or did not load, or the path could not be
    encoded: then nothing was called and the state is as before.  Or the
    engine returned the zero handle: then the error is [OpenError], the
    open call is the only call made, and the stored handle is zero. *)
Theorem constructor_failure_cases {W} (os : Os)
    (cdll : str -> option (Lib W)) (path : str) (lib_path : option str)
    (st : State) (e : pyexn) (st' : State) :
  NovusDB os cdll path lib_path st = (Fail e, st') ->
  (st' = st
   /\ (e = FileNotFoundError (library_names (system os)) (search_paths os)
       \/ e = LoadError
       \/ (e = DriverError UnicodeEncodeError /\ encode_utf8 path = None)))
  \/ (e = DriverError (OpenError path)
      /\ _handle st' = 0
      /\ exists p, encode_utf8 path = Some p
                   /\ calls st' = calls st ++ [CallOpen p]).
Proof.
  unfold NovusDB.
  destruct (lib_file os lib_path) as [file|e0] eqn:F.
  - destruct (cdll file) as [l|] eqn:L.
    + destruct (encode_utf8 path) as [p|] eqn:E.
      * rewrite (init_run l st path p E). cbn zeta.
        destruct (c_longlong (fst (NovusDB_open l p (engine st))) =? 0) eqn:Z;
          [|discriminate].
        intros [= <- <-]. right. apply Z.eqb_eq in Z.
        split; [reflexivity|]. split; [exact Z|].
        exists p. split; reflexivity.
      * rewrite (init_unencodable l st path E).
        intros [= <- <-]. left. split; [reflexivity|].
        right. right. split; reflexivity.
    + intros [= <- <-]. left. split; [reflexivity|]. right. left. reflexivity.
  - intros [= <- <-]. left. split; [reflexivity|]. left.
    apply (lib_file_fail os lib_path e0 F).
Qed.

Lemma constructor_failure_cases_witness :
  NovusDB (listed_os (py "Linux") (py "/app") (py "/home/u")
             [py "/app/libNovusDB.so"])
    (load_only (py "/app/libNovusDB.so"))
    (py "missing.dlite") None (conn 0 [RInt 0])
  = (Fail (DriverError (OpenError (py "missing.dlite"))),
     {| _handle := 0; calls := [CallOpen (lit "missing.dlite")];
        engine := [] |})
  /\ exists p, encode_utf8 (py "missing.dlite") = Some p
               /\ [CallOpen (lit "missing.dlite")] = [] ++ [CallOpen p].
Proof.
  assert (R : NovusDB (listed_os (py "Linux") (py "/app") (py "/home/u")
                         [py "/app/libNovusDB.so"])
                (load_only (py "/app/libNovusDB.so"))
                (py "missing.dlite") None (conn 0 [RInt 0])
              = (Fail (DriverError (OpenError (py "missing.dlite"))),
                 {| _handle := 0; calls := [CallOpen (lit "missing.dlite")];
                    engine := [] |}))
    by (vm_compute; reflexivity).
  split; [exact R|].
  destruct (constructor_failure_cases _ _ _ _ _ _ _ R)
    as [[_ [C|[C|[C _]]]]|[_ [_ P]]]; [discriminate C ..|exact P].
Defined.

(** ** The command line *)

Section CommandLine.

Context {W : Type}.
Variable os : Os.
Variable cdll : str -> option (Lib W).
Variable json_loads : str -> result value.
Variable json_dumps : value -> result str.
Variable py_str : value -> result str.
Variable stdout_encodes : str -> bool.
Implicit Type st : @State W.

Lemma usage_is_printable : printable stdout_encodes usage = true.
Proof.
  unfold printable.
  replace (is_ascii usage) with true by (vm_compute; reflexivity).
  reflexivity.
Qed.

(** The block runs its body and then [close], whatever the body did. *)
Lemma with_connection_run lib body st :
  with_connection lib body st =
    let '(r, out, st2) := body st in (r, out, snd (close lib st2)).
Proof.
  unfold with_connection, __enter__, ret, __exit__.
  destruct (body st) as [[r out] st2].
  rewrite close_run. destruct (_handle st2 =? 0); reflexivity.
Qed.

Lemma main_with_path name db_path args st lib st1 :
  NovusDB os cdll db_path None st = (Done lib, st1) ->
  main os cdll json_loads json_dumps py_str stdout_encodes
    (name :: db_path :: args) st =
    let '(r, out, st2) :=
      main_body json_loads json_dumps py_str stdout_encodes
        lib db_path args st1 in
    (r, out, snd (close lib st2)).
Proof.
  intros C. cbn [main]. rewrite C. apply with_connection_run.
Qed.

Lemma main_body_statement lib db_path a args st q :
  encode_utf8 (join_spaces (a :: args)) = Some q ->
  main_body json_loads json_dumps py_str stdout_encodes
    lib db_path (a :: args) st =
    let r := NovusDB_exec lib (_handle st) q (engine st) in
    (fst (statement_end json_dumps stdout_encodes (envelope json_loads (fst r))),
     snd (statement_end json_dumps stdout_encodes (envelope json_loads (fst r))),
     logged st [CallExec (_handle st) q] (snd r)).
Proof.
  intros E. cbn [main_body].
  rewrite (exec_run lib json_loads st _ q E). cbn zeta.
  unfold statement_end.
  destruct (envelope json_loads _) as [v|e]; [|reflexivity].
  destruct (json_dumps v) as [text|e]; [|reflexivity].
  destruct (printable stdout_encodes text); reflexivity.
Qed.

Lemma main_body_unencodable lib db_path a args st :
  encode_utf8 (join_spaces (a :: args)) = None ->
  main_body json_loads json_dumps py_str stdout_encodes
    lib db_path (a :: args) st =
    (Fail (DriverError UnicodeEncodeError), [], st).
Proof.
  intros E. cbn [main_body].
  rewrite (exec_unencodable lib json_loads st _ E). reflexivity.
Qed.

Lemma main_body_listing lib db_path st :
  printable stdout_encodes (py "Connected to " ++ db_path) = true ->
  main_body json_loads json_dumps py_str stdout_encodes lib db_path [] st =
    let r := NovusDB_collections lib (_handle st) (engine st) in
    (fst (listing_end py_str stdout_encodes (py "Connected to " ++ db_path)
            (name_list json_loads (fst r))),
     snd (listing_end py_str stdout_encodes (py "Connected to " ++ db_path)
            (name_list json_loads (fst r))),
     logged st [CallCollections (_handle st)] (snd r)).
Proof.
  intros P. cbn [main_body]. cbv zeta. rewrite P.
  rewrite collections_run. cbn zeta. unfold listing_end.
  destruct (name_list json_loads _) as [v|e]; [|reflexivity].
  destruct (py_str v) as [text|e]; [|reflexivity].
  destruct (printable stdout_encodes (py "Collections: " ++ text));
    reflexivity.
Qed.

Lemma main_body_unprintable lib db_path st :
  printable stdout_encodes (py "Connected to " ++ db_path) = false ->
  main_body json_loads json_dumps py_str stdout_encodes lib db_path [] st =
    (Fail (DriverError UnicodeEncodeError), [], st).
Proof.
  intros P. cbn [main_body]. cbv zeta. rewrite P. reflexivity.
Qed.

(** The body makes at most one foreign call, never a release, and leaves
    the handle alone; and it never ends through [sys.exit]. *)
Lemma main_body_calls lib db_path args st :
  exists body_calls w,
    snd (main_body json_loads json_dumps py_str stdout_encodes
           lib db_path args st)
      = logged st body_calls w
    /\ (body_calls = []
        \/ exists c, body_calls = [c] /\ is_close c = false).
Proof.
  assert (Nothing : exists body_calls w,
            st = logged st body_calls w
            /\ (body_calls = []
                \/ exists c, body_calls = [c] /\ is_close c = false)).
  { exists [], (engine st). split; [|left; reflexivity].
    unfold logged. cbn. rewrite app_nil_r. destruct st; reflexivity. }
  destruct args as [|a args].
  - destruct (printable stdout_encodes (py "Connected to " ++ db_path)) eqn:P.
    + rewrite (main_body_listing lib db_path st P). cbn zeta. eexists _, _.
      split; [reflexivity|]. right. eexists. split; reflexivity.
    + rewrite (main_body_unprintable lib db_path st P). exact Nothing.
  - destruct (encode_utf8 (join_spaces (a :: args))) as [q|] eqn:E.
    + rewrite (main_body_statement lib db_path a args st q E). cbn zeta.
      eexists _, _. split; [reflexivity|].
      right. eexists. split; reflexivity.
    + rewrite (main_body_unencodable lib db_path a args st E). exact Nothing.
Qed.

Lemma statement_end_no_exit r code out :
  statement_end json_dumps stdout_encodes r <> (Fail (SystemExit code), out).
Proof.
  unfold statement_end. destruct r as [v|e]; [|discriminate].
  destruct (json_dumps v) as [text|e]; [|discriminate].
  destruct (printable stdout_encodes text); discriminate.
Qed.

Lemma listing_end_no_exit connected r code out :
  listing_end py_str stdout_encodes connected r <> (Fail (SystemExit code), out).
Proof.
  unfold listing_end. destruct r as [v|e]; [|discriminate].
  destruct (py_str v) as [text|e]; [|discriminate].
  destruct (printable stdout_encodes (py "Collections: " ++ text));
    discriminate.
Qed.

Lemma main_body_no_exit lib db_path args st code out st' :
  main_body json_loads json_dumps py_str stdout_encodes lib db_path args st
  <> (Fail (SystemExit code), out, st').
Proof.
  destruct args as [|a args].
  - destruct (printable stdout_encodes (py "Connected to " ++ db_path)) eqn:P.
    + rewrite (main_body_listing lib db_path st P). cbn zeta.
      intros H. injection H as H1 H2 _.
      apply (listing_end_no_exit (py "Connected to " ++ db_path)
               (name_list json_loads
                  (fst (NovusDB_collections lib (_handle st) (engine st))))
               code out).
      rewrite <- H1, <- H2. apply surjective_pairing.
    + rewrite (main_body_unprintable lib db_path st P). discriminate.
  - destruct (encode_utf8 (join_spaces (a :: args))) as [q|] eqn:E.
    + rewrite (main_body_statement lib db_path a args st q E). cbn zeta.
      intros H. injection H as H1 H2 _.
      apply (statement_end_no_exit
               (envelope json_loads
                  (fst (NovusDB_exec lib (_handle st) q (engine st))))
               code out).
      rewrite <- H1, <- H2. apply surjective_pairing.
    + rewrite (main_body_unencodable lib db_path a args st E). discriminate.
Qed.

End CommandLine.

(** X5.  The program ends through [sys.exit] exactly when it is given no
    database path; the exit code is then 1, the usage line is the only
    output, and nothing is searched, loaded or called. *)
Theorem main_exits_iff_no_path {W} (os : Os) (cdll : str -> option (Lib W))
    (json_loads : str -> result value)
    (json_dumps py_str : value -> result str) (stdout_encodes : str -> bool)
    (argv : list str) (st : State) :
  (forall code out st',
     main os cdll json_loads json_dumps py_str stdout_encodes argv st
       = (Fail (SystemExit code), out, st')
     <-> (List.length argv < 2)%nat
         /\ code = 1 /\ out = [usage] /\ st' = st).
Proof.
  intros code out st'.
  destruct argv as [|name [|db_path args]].
  - cbn [main]. rewrite usage_is_printable. cbn. split.
    + intros [= <- <- <-]. repeat split. lia.
    + intros (_ & -> & -> & ->). reflexivity.
  - cbn [main]. rewrite usage_is_printable. cbn. split.
    + intros [= <- <- <-]. repeat split. lia.
    + intros (_ & -> & -> & ->). reflexivity.
  - split; [|cbn [List.length]; lia].
    intros H. exfalso.
    destruct (NovusDB os cdll db_path None st) as [[lib|e] st1] eqn:C.
    + rewrite (main_with_path os cdll json_loads json_dumps py_str
                 stdout_encodes name db_path args st lib st1 C) in H.
      destruct (main_body json_loads json_dumps py_str stdout_encodes
                  lib db_path args st1) as [[r o] st2] eqn:B.
      injection H as -> -> _.
      exact (main_body_no_exit json_loads json_dumps py_str stdout_encodes
               lib db_path args st1 code out st2 B).
    + cbn [main] in H. rewrite C in H. injection H as -> _ _.
      destruct (constructor_failure_cases os cdll db_path None st _ _ C)
        as [[_ [X|[X|[X _]]]]|[X _]]; discriminate.
Qed.

Lemma main_exits_iff_no_path_witness :
  main (listed_os (py "Linux") (py "/app") (py "/home/u") [])
    (load_only (py "/app/libNovusDB.so")) json_loads_ref
    (fun _ => Ok []) (fun _ => Ok []) (fun _ => false)
    [py "novusdb.py"] (conn 0 [RInt 7])
  = (Fail (SystemExit 1), [usage], conn 0 [RInt 7]).
Proof.
  apply (proj2 (main_exits_iff_no_path
                  (listed_os (py "Linux") (py "/app") (py "/home/u") [])
                  (load_only (py "/app/libNovusDB.so")) json_loads_ref
                  (fun _ => Ok []) (fun _ => Ok []) (fun _ => false)
                  [py "novusdb.py"]
                  (conn 0 [RInt 7]) 1 [usage] (conn 0 [RInt 7]))).
  repeat split. cbn. lia.
Defined.

(** X6.  Once the constructor has succeeded, the program releases the
    handle on every path: whether the body returns or raises, the last
    foreign call is the release of the handle the constructor obtained, it
    is the only release, the body made at most one other call, and the
    handle ends at zero. *)
Theorem main_releases_handle {W} (os : Os) (cdll : str -> option (Lib W))
    (json_loads : str -> result value)
    (json_dumps py_str : value -> result str) (stdout_encodes : str -> bool)
    (name db_path : str) (args : list str) (st : State)
    (lib : Lib W) (st1 : State) :
  NovusDB os cdll db_path None st = (Done lib, st1) ->
  exists r out body_calls w,
    main os cdll json_loads json_dumps py_str stdout_encodes
      (name :: db_path :: args) st
      = (r, out,
         {| _handle := 0;
            calls := calls st1 ++ body_calls ++ [CallClose (_handle st1)];
            engine := w |})
    /\ (body_calls = [] \/ exists c, body_calls = [c] /\ is_close c = false)
    /\ _handle st1 <> 0.
Proof.
  intros C.
  assert (N : _handle st1 <> 0).
  { destruct (constructor_done os cdll db_path None st lib st1 C)
      as (file & p & _ & _ & _ & Z & ->). exact Z. }
  rewrite (main_with_path os cdll json_loads json_dumps py_str
             stdout_encodes name db_path args st lib st1 C).
  destruct (main_body_calls json_loads json_dumps py_str stdout_encodes
              lib db_path args st1)
    as (body_calls & w & E & B).
  destruct (main_body json_loads json_dumps py_str stdout_encodes
              lib db_path args st1)
    as [[r out] st2].
  cbn [snd] in E. subst st2.
  assert (N2 : _handle (logged st1 body_calls w) <> 0) by exact N.
  rewrite (close_when_open lib _ N2). cbn [snd].
  exists r, out, body_calls, (snd (NovusDB_close lib (_handle st1) w)).
  split; [|split; [exact B|exact N]].
  unfold released, logged. cbn. rewrite <- app_assoc. reflexivity.
Qed.

Lemma main_releases_handle_witness :
  NovusDB (listed_os (py "Linux") (py "/app") (py "/home/u")
             [py "/app/libNovusDB.so"])
    (load_only (py "/app/libNovusDB.so")) (py "t.db") None
    (conn 0 [RInt 7; RPtr (Some (lit "{'error': 'no such table'}")); RInt 0])
  = (Done scripted,
     {| _handle := 7; calls := [CallOpen (lit "t.db")];
        engine := [RPtr (Some (lit "{'error': 'no such table'}")); RInt 0] |})
  /\ exists r out body_calls w,
       main (listed_os (py "Linux") (py "/app") (py "/home/u")
               [py "/app/libNovusDB.so"])
         (load_only (py "/app/libNovusDB.so")) json_loads_ref
         (fun _ => Ok []) (fun _ => Ok []) (fun _ => false)
         [py "novusdb.py"; py "t.db"; py "SELECT"; py "*"; py "FROM"; py "t"]
         (conn 0 [RInt 7; RPtr (Some (lit "{'error': 'no such table'}"));
                  RInt 0])
       = (r, out,
          {| _handle := 0;
             calls := [CallOpen (lit "t.db")] ++ body_calls ++ [CallClose 7];
             engine := w |})
       /\ (body_calls = [] \/ exists c, body_calls = [c] /\ is_close c = false)
       /\ 7 <> 0.
Proof.
  assert (C : NovusDB (listed_os (py "Linux") (py "/app") (py "/home/u")
                         [py "/app/libNovusDB.so"])
                (load_only (py "/app/libNovusDB.so")) (py "t.db") None
                (conn 0 [RInt 7;
                         RPtr (Some (lit "{'error': 'no such table'}"));
                         RInt 0])
              = (Done scripted,
                 {| _handle := 7; calls := [CallOpen (lit "t.db")];
                    engine := [RPtr (Some (lit "{'error': 'no such table'}"));
                               RInt 0] |}))
    by (vm_compute; reflexivity).
  split; [exact C|].
  exact (main_releases_handle _ _ json_loads_ref
           (fun _ => Ok []) (fun _ => Ok []) (fun _ => false)
           (py "novusdb.py") (py "t.db")
           [py "SELECT"; py "*"; py "FROM"; py "t"] _ _ _ C).
Defined.





(** ** More on the methods *)

Lemma text_or_empty_ok raw s :
  text_or_empty raw = Ok s <->
  (raw = None /\ s = [])
  \/ exists b, raw = Some b /\ decode_utf8 b = Some s.
Proof.
  unfold text_or_empty. destruct raw as [[|b bs]|].
  - split.
    + intros [= <-]. right. exists []. split; reflexivity.
    + intros [[C _]|(b & [= <-] & D)]; [discriminate|].
      change (decode_utf8 []) with (Some (@nil N)) in D.
      injection D as <-. reflexivity.
  - destruct (decode_utf8 (b :: bs)) as [t|] eqn:D.
    + split.
      * intros [= <-]. right. exists (b :: bs). split; [reflexivity|exact D].
      * intros [[C _]|(b' & [= <-] & D')]; [discriminate|]. congruence.
    + split; [discriminate|].
      intros [[C _]|(b' & [= <-] & D')]; [discriminate|]. congruence.
  - split.
    + intros [= <-]. left. split; reflexivity.
    + intros [[_ ->]|(b & C & _)]; [reflexivity|discriminate].
Qed.

Lemma text_or_empty_raise raw e :
  text_or_empty raw = Raise e <->
  e = UnicodeDecodeError /\ exists b, raw = Some b /\ decode_utf8 b = None.
Proof.
  unfold text_or_empty. destruct raw as [[|b bs]|].
  - split; [discriminate|].
    intros (_ & b & [= <-] & D). discriminate.
  - destruct (decode_utf8 (b :: bs)) as [t|] eqn:D.
    + split; [discriminate|].
      intros (_ & b' & [= <-] & D'). congruence.
    + split.
      * intros [= <-]. split; [reflexivity|].
        exists (b :: bs). split; [reflexivity|exact D].
      * intros (-> & _). reflexivity.
  - split; [discriminate|]. intros (_ & b & C & _). discriminate.
Qed.

(** X10.  [exec] and [collections] have no null branch: when the engine
    returns the null pointer, each raises [AttributeError], after the call
    has been made. *)
Theorem null_envelope_raises_attribute_error {W} (lib : Lib W)
    (json_loads : str -> result value) (st : State) :
  (forall sql q,
     encode_utf8 sql = Some q ->
     fst (NovusDB_exec lib (_handle st) q (engine st)) = None ->
     exec lib json_loads sql st
       = (Raise AttributeError,
          logged st [CallExec (_handle st) q]
            (snd (NovusDB_exec lib (_handle st) q (engine st)))))
  /\ (fst (NovusDB_collections lib (_handle st) (engine st)) = None ->
      collections lib json_loads st
        = (Raise AttributeError,
           logged st [CallCollections (_handle st)]
             (snd (NovusDB_collections lib (_handle st) (engine st))))).
Proof.
  split.
  - intros sql q E H. rewrite (exec_run lib json_loads st sql q E).
    cbn zeta. rewrite H. reflexivity.
  - intros H. rewrite collections_run. cbn zeta. rewrite H. reflexivity.
Qed.

Lemma null_envelope_raises_attribute_error_witness :
  encode_utf8 (py "SELECT 1") = Some (lit "SELECT 1")
  /\ exec scripted json_loads_ref (py "SELECT 1") (conn 7 [RPtr None])
     = (Raise AttributeError,
        {| _handle := 7; calls := [CallExec 7 (lit "SELECT 1")];
           engine := [] |})
  /\ collections scripted json_loads_ref (conn 7 [RPtr None])
     = (Raise AttributeError,
        {| _handle := 7; calls := [CallCollections 7]; engine := [] |}).
Proof.
  assert (E : encode_utf8 (py "SELECT 1") = Some (lit "SELECT 1"))
    by (vm_compute; reflexivity).
  split; [exact E|]. split.
  - exact (proj1 (null_envelope_raises_attribute_error scripted json_loads_ref
                    (conn 7 [RPtr None]))
             (py "SELECT 1") (lit "SELECT 1") E eq_refl).
  - exact (proj2 (null_envelope_raises_attribute_error scripted json_loads_ref
                    (conn 7 [RPtr None])) eq_refl).
Defined.

(** X11.  [dump] and [last_error] return the reply decoded, the empty
    string when the reply is the null pointer or empty; the only thing
    either can raise is [UnicodeDecodeError], and it does so exactly when
    the reply is not valid UTF-8. *)
Theorem dump_and_last_error_outcomes {W} (lib : Lib W) (st : State) :
  (forall s,
     fst (dump lib st) = Ok s <->
     (fst (NovusDB_dump lib (_handle st) (engine st)) = None /\ s = [])
     \/ exists b, fst (NovusDB_dump lib (_handle st) (engine st)) = Some b
                  /\ decode_utf8 b = Some s)
  /\ (forall e,
        fst (dump lib st) = Raise e <->
        e = UnicodeDecodeError
        /\ exists b, fst (NovusDB_dump lib (_handle st) (engine st)) = Some b
                     /\ decode_utf8 b = None)
  /\ (forall s,
        fst (last_error lib st) = Ok s <->
        (fst (NovusDB_error lib (_handle st) (engine st)) = None /\ s = [])
        \/ exists b, fst (NovusDB_error lib (_handle st) (engine st)) = Some b
                     /\ decode_utf8 b = Some s)
  /\ (forall e,
        fst (last_error lib st) = Raise e <->
        e = UnicodeDecodeError
        /\ exists b, fst (NovusDB_error lib (_handle st) (engine st)) = Some b
                     /\ decode_utf8 b = None).
Proof.
  rewrite dump_run, last_error_run. cbn [fst].
  split; [|split; [|split]]; intros x.
  - apply text_or_empty_ok.
  - apply text_or_empty_raise.
  - apply text_or_empty_ok.
  - apply text_or_empty_raise.
Qed.

Lemma dump_and_last_error_outcomes_witness :
  fst (dump scripted (conn 7 [RPtr (Some [xc3; x28])]))
    = Raise UnicodeDecodeError
  /\ fst (last_error scripted (conn 7 [RPtr (Some (lit "no such table"))]))
     = Ok (py "no such table").
Proof.
  split.
  - apply (proj2 (proj1 (proj2 (dump_and_last_error_outcomes scripted
                                  (conn 7 [RPtr (Some [xc3; x28])])))
                    UnicodeDecodeError)).
    split; [reflexivity|]. exists [xc3; x28].
    split; vm_compute; reflexivity.
  - apply (proj2 (proj1 (proj2 (proj2 (dump_and_last_error_outcomes scripted
                                  (conn 7 [RPtr (Some (lit "no such table"))]))))
                    (py "no such table"))).
    right. exists (lit "no such table"). split; vm_compute; reflexivity.
Defined.

(** X12.  [collections] returns whatever value [json.loads] gave, as it
    is: the value is not required to be a list of strings, and an object
    with an [error] key is returned like any other.  It adds no error of its
    own: it raises [AttributeError] exactly when the reply is the null
    pointer, [UnicodeDecodeError] exactly when the reply is not valid UTF-8,
    and otherwise exactly what [json.loads] raised on the text. *)
Theorem collections_returns_any_value {W} (lib : Lib W)
    (json_loads : str -> result value) (st : State) :
  (forall v,
     fst (collections lib json_loads st) = Ok v <->
     exists b text,
       fst (NovusDB_collections lib (_handle st) (engine st)) = Some b
       /\ decode_utf8 b = Some text
       /\ json_loads text = Ok v)
  /\ (forall e,
        fst (collections lib json_loads st) = Raise e <->
        (e = AttributeError
         /\ fst (NovusDB_collections lib (_handle st) (engine st)) = None)
        \/ (e = UnicodeDecodeError
            /\ exists b,
                 fst (NovusDB_collections lib (_handle st) (engine st))
                   = Some b
                 /\ decode_utf8 b = None)
        \/ (exists b text,
              fst (NovusDB_collections lib (_handle st) (engine st)) = Some b
              /\ decode_utf8 b = Some text
              /\ json_loads text = Raise e)).
Proof.
  rewrite collections_run. cbn [fst]. unfold name_list.
  destruct (fst (NovusDB_collections lib (_handle st) (engine st)))
    as [b|].
  - destruct (decode_utf8 b) as [text|] eqn:D.
    + destruct (json_loads text) as [v0|e0] eqn:L.
      * split.
        -- intros v. split.
           ++ intros [= <-]. exists b, text. repeat split; assumption.
           ++ intros (b' & text' & [= <-] & D' & L'). congruence.
        -- intros e. split; [discriminate|].
           intros [[_ C]|[(_ & b' & [= <-] & D')|(b' & text' & [= <-] & D' & L')]];
             congruence.
      * split.
        -- intros v. split; [discriminate|].
           intros (b' & text' & [= <-] & D' & L'). congruence.
        -- intros e. split.
           ++ intros [= <-]. right. right. exists b, text.
              repeat split; assumption.
           ++ intros [[_ C]|[(_ & b' & [= <-] & D')|(b' & text' & [= <-] & D' & L')]];
                congruence.
    + split.
      * intros v. split; [discriminate|].
        intros (b' & text' & [= <-] & D' & _). congruence.
      * intros e. split.
        -- intros [= <-]. right. left. split; [reflexivity|].
           exists b. split; [reflexivity|exact D].
        -- intros [[_ C]|[(-> & _)|(b' & text' & [= <-] & D' & _)]];
             [discriminate|reflexivity|congruence].
  - split.
    + intros v. split; [discriminate|].
      intros (b' & text' & C & _). discriminate.
    + intros e. split.
      * intros [= <-]. left. split; reflexivity.
      * intros [[-> _]|[(_ & b' & C & _)|(b' & text' & C & _)]];
          [reflexivity|discriminate|discriminate].
Qed.

Lemma collections_returns_any_value_witness :
  fst (collections scripted json_loads_ref
         (conn 0 [RPtr (Some (lit "{'error': 'invalid handle'}"))]))
  = Ok (VDict [(py "error", VStr (py "invalid handle"))]).
Proof.
  apply (proj2 (proj1 (collections_returns_any_value scripted json_loads_ref
                         (conn 0 [RPtr (Some (lit "{'error': 'invalid handle'}"))]))
                  (VDict [(py "error", VStr (py "invalid handle"))]))).
  exists (lit "{'error': 'invalid handle'}"),
         (pyq "{'error': 'invalid handle'}").
  split; [reflexivity|]. split; vm_compute; reflexivity.
Defined.

(** X13.  An id that [insert_json] returns is the engine's id read as a
    signed 64-bit integer, and lies between 0 and 2^63 - 1; returning it took
    exactly one foreign call: [NovusDB_error] is not consulted. *)
Theorem insert_json_returns_id_in_range {W} (lib : Lib W) (st : State)
    (c j : str) (id : Z) :
  fst (insert_json lib c j st) = Ok id ->
  0 <= id < 2 ^ 63
  /\ exists cb jb,
       encode_utf8 c = Some cb /\ encode_utf8 j = Some jb
       /\ id = c_longlong
                 (fst (NovusDB_insert_json lib (_handle st) cb jb (engine st)))
       /\ calls (snd (insert_json lib c j st))
          = calls st ++ [CallInsertJson (_handle st) cb jb].
Proof.
  destruct (encode_utf8 c) as [cb|] eqn:Ec;
    [destruct (encode_utf8 j) as [jb|] eqn:Ej|].
  - rewrite (insert_json_run lib st c j cb jb Ec Ej). cbn zeta.
    destruct (c_longlong _ <? 0) eqn:Z; cbn [fst snd].
    + destruct (text_or_empty _); discriminate.
    + intros [= <-]. apply Z.ltb_ge in Z. split.
      * pose proof (c_longlong_range
                      (fst (NovusDB_insert_json lib (_handle st) cb jb
                              (engine st)))). lia.
      * exists cb, jb. repeat split.
  - rewrite insert_json_unencodable by (right; exact Ej). discriminate.
  - rewrite insert_json_unencodable by (left; exact Ec). discriminate.
Qed.

Lemma insert_json_returns_id_in_range_witness :
  fst (insert_json scripted (py "users") (py "{}")
         (conn 7 [RInt (2 ^ 64 + 5)])) = Ok 5
  /\ 0 <= 5 < 2 ^ 63.
Proof.
  assert (R : fst (insert_json scripted (py "users") (py "{}")
                     (conn 7 [RInt (2 ^ 64 + 5)])) = Ok 5)
    by (vm_compute; reflexivity).
  split; [exact R|].
  exact (proj1 (insert_json_returns_id_in_range scripted
                  (conn 7 [RInt (2 ^ 64 + 5)]) (py "users") (py "{}") 5 R)).
Defined.

(** X14.  A handle that was never obtained is never released: after a
    constructor that failed with [OpenError], any number of [close],
    [__exit__] and [__del__] return normally and change nothing; no
    [NovusDB_close] is called. *)
Theorem failed_open_is_never_released {W} (lib : Lib W) (st : State)
    (path : str) (cs : list Closer) :
  fst (__init__ lib path st) = Raise (OpenError path) ->
  run_closers lib cs (snd (__init__ lib path st))
  = (repeat (Ok tt) (List.length cs), snd (__init__ lib path st)).
Proof.
  intros H. apply run_closers_when_closed.
  destruct (encode_utf8 path) as [p|] eqn:E.
  - rewrite (init_run lib st path p E) in *. cbn in *.
    destruct (c_longlong (fst (NovusDB_open lib p (engine st))) =? 0) eqn:Z;
      [|discriminate].
    apply Z.eqb_eq. exact Z.
  - rewrite (init_unencodable lib st path E) in H. discriminate.
Qed.

Lemma failed_open_is_never_released_witness :
  fst (__init__ scripted (py "missing.dlite") (conn 0 [RInt 0; RInt 0]))
    = Raise (OpenError (py "missing.dlite"))
  /\ run_closers scripted [ByDel; ByClose]
       (snd (__init__ scripted (py "missing.dlite") (conn 0 [RInt 0; RInt 0])))
     = ([Ok tt; Ok tt],
        {| _handle := 0; calls := [CallOpen (lit "missing.dlite")];
           engine := [RInt 0] |}).
Proof.
  assert (F : fst (__init__ scripted (py "missing.dlite")
                     (conn 0 [RInt 0; RInt 0]))
              = Raise (OpenError (py "missing.dlite")))
    by (vm_compute; reflexivity).
  split; [exact F|].
  exact (failed_open_is_never_released scripted (conn 0 [RInt 0; RInt 0])
           (py "missing.dlite") [ByDel; ByClose] F).
Defined.

(** X15.  On an envelope that decodes to something other than an object,
    the test of line 122 is not a key test.  A number, a boolean or [null]
    raises [TypeError].  An array is returned as a success value unless the
    string [error] is one of its elements, and a string unless it contains
    [error]; in those two cases the subscript of line 123 raises
    [TypeError].  No [QueryError] is raised. *)
Theorem exec_non_object_envelope {W} (lib : Lib W)
    (json_loads : str -> result value) (st : State)
    (sql : str) (q raw : bytes) (text : str) (v : value) :
  encode_utf8 sql = Some q ->
  fst (NovusDB_exec lib (_handle st) q (engine st)) = Some raw ->
  decode_utf8 raw = Some text ->
  json_loads text = Ok v ->
  (forall d, v <> VDict d) ->
  fst (exec lib json_loads sql st)
  = match v with
    | VList l =>
        if existsb (str_equals (py "error")) l then Raise TypeError else Ok v
    | VStr s =>
        if is_substring (py "error") s then Raise TypeError else Ok v
    | _ => Raise TypeError
    end.
Proof.
  intros Eq Er Ed El N.
  rewrite (exec_run lib json_loads st sql q Eq). cbn [fst]. rewrite Er.
  unfold envelope. rewrite Ed, El.
  destruct v as [|b|z|f|s|l|d]; cbn [py_in py_getitem]; try reflexivity.
  contradiction (N d). reflexivity.
Qed.

Lemma exec_non_object_envelope_witness :
  encode_utf8 (py "SELECT 1") = Some (lit "SELECT 1")
  /\ json_loads_ref (pyq "['warning', 'error']")
     = Ok (VList [VStr (py "warning"); VStr (py "error")])
  /\ fst (exec scripted json_loads_ref (py "SELECT 1")
            (conn 7 [RPtr (Some (lit "['warning', 'error']"))]))
     = Raise TypeError.
Proof.
  assert (Eq : encode_utf8 (py "SELECT 1") = Some (lit "SELECT 1"))
    by (vm_compute; reflexivity).
  assert (El : json_loads_ref (pyq "['warning', 'error']")
               = Ok (VList [VStr (py "warning"); VStr (py "error")]))
    by (vm_compute; reflexivity).
  split; [exact Eq|]. split; [exact El|].
  exact (exec_non_object_envelope scripted json_loads_ref
           (conn 7 [RPtr (Some (lit "['warning', 'error']"))])
           (py "SELECT 1") (lit "SELECT 1")
           (lit "['warning', 'error']") (pyq "['warning', 'error']")
           (VList [VStr (py "warning"); VStr (py "error")])
           Eq eq_refl ltac:(vm_compute; reflexivity) El
           ltac:(intros d; discriminate)).
Defined.

(** ** The handle over a whole session *)

Section Session.

Context {W : Type}.
Variable lib : Lib W.
Variable json_loads : str -> result value.
Implicit Type st : @State W.

Lemma steps_handle ops : forall st,
  _handle (steps lib json_loads ops st) = _handle st
  \/ _handle (steps lib json_loads ops st) = 0.
Proof.
  induction ops as [|o ops IH]; intros st; [left; reflexivity|].
  cbn [steps fold_left].
  destruct (IH (step lib json_loads st o)) as [H|H]; [|right; exact H].
  unfold steps in H. rewrite H, step_handle.
  destruct o; auto.
Qed.

(** What one operation adds to the log. *)
Lemma step_new_calls st o :
  exists new,
    calls (step lib json_loads st o) = calls st ++ new
    /\ match o with
       | OpClose | OpExit | OpDel =>
           new = if _handle st =? 0 then [] else [CallClose (_handle st)]
       | _ => forallb (uses (_handle st)) new = true
       end.
Proof.
  assert (U : forall c, call_handle c = Some (_handle st) ->
                        is_close c = false -> uses (_handle st) c = true).
  { intros c H N. unfold uses. rewrite H, N, Z.eqb_refl. reflexivity. }
  assert (C : exists new,
            calls (snd (close lib st)) = calls st ++ new
            /\ new = if _handle st =? 0 then []
                     else [CallClose (_handle st)]).
  { rewrite close_run. destruct (_handle st =? 0).
    - exists []. split; [cbn [snd]; rewrite app_nil_r|]; reflexivity.
    - eexists. split; reflexivity. }
  assert (Nothing : exists new : list Call,
            calls st = calls st ++ new
            /\ forallb (uses (_handle st)) new = true).
  { exists []. split; [rewrite app_nil_r|]; reflexivity. }
  assert (One : forall c w,
            call_handle c = Some (_handle st) -> is_close c = false ->
            exists new,
              calls (logged st [c] w) = calls st ++ new
              /\ forallb (uses (_handle st)) new = true).
  { intros c w H N. exists [c]. split; [reflexivity|].
    cbn [forallb]. rewrite (U c H N). reflexivity. }
  assert (Two : forall c1 c2 w,
            call_handle c1 = Some (_handle st) -> is_close c1 = false ->
            call_handle c2 = Some (_handle st) -> is_close c2 = false ->
            exists new,
              calls (logged st [c1; c2] w) = calls st ++ new
              /\ forallb (uses (_handle st)) new = true).
  { intros c1 c2 w H1 N1 H2 N2. exists [c1; c2]. split; [reflexivity|].
    cbn [forallb]. rewrite (U c1 H1 N1), (U c2 H2 N2). reflexivity. }
  destruct o; cbn [step]; try exact C.
  - destruct (encode_utf8 sql) as [q|] eqn:E.
    + rewrite (exec_run lib json_loads st sql q E).
      cbv beta zeta. cbn [snd]. apply One; reflexivity.
    + rewrite (exec_unencodable lib json_loads st sql E). exact Nothing.
  - destruct (encode_utf8 collection) as [cb|] eqn:Ec;
      [destruct (encode_utf8 json_str) as [jb|] eqn:Ej|].
    + rewrite (insert_json_run lib st _ _ cb jb Ec Ej). cbv beta zeta.
      destruct (c_longlong _ <? 0); cbn [snd].
      * apply Two; reflexivity.
      * apply One; reflexivity.
    + rewrite insert_json_unencodable by (right; exact Ej). exact Nothing.
    + rewrite insert_json_unencodable by (left; exact Ec). exact Nothing.
  - rewrite collections_run. cbv beta zeta. cbn [snd]. apply One; reflexivity.
  - rewrite last_error_run. cbv beta zeta. cbn [snd]. apply One; reflexivity.
  - rewrite dump_run. cbv beta zeta. cbn [snd]. apply One; reflexivity.
  - exact Nothing.
Qed.

Lemma steps_after_release ops : forall st,
  _handle st = 0 ->
  exists new,
    calls (steps lib json_loads ops st) = calls st ++ new
    /\ forallb (uses 0) new = true.
Proof.
  induction ops as [|o ops IH]; intros st H.
  - exists []. split; [cbn; rewrite app_nil_r|]; reflexivity.
  - cbn [steps fold_left].
    destruct (step_new_calls st o) as (n1 & E1 & P1).
    assert (H1 : _handle (step lib json_loads st o) = 0).
    { rewrite step_handle. destruct o; auto. }
    destruct (IH _ H1) as (n2 & E2 & P2).
    exists (n1 ++ n2). unfold steps in E2. rewrite E2, E1, app_assoc.
    split; [reflexivity|]. rewrite forallb_app, P2, andb_true_r.
    rewrite H in P1. destruct o; try exact P1; subst n1; reflexivity.
Qed.

Lemma released_once_after_uses h n1 n2 :
  forallb (uses h) n1 = true ->
  released_once h n2 = true ->
  released_once h (n1 ++ n2) = true.
Proof.
  intros P1 P2. induction n1 as [|c n1 IH]; [exact P2|].
  cbn in P1. apply andb_prop in P1. destruct P1 as [Pc P1].
  cbn. assert (N : is_close c = false).
  { unfold uses in Pc. destruct (is_close c); [discriminate|reflexivity]. }
  rewrite N, Pc. exact (IH P1).
Qed.

End Session.

(** X16.  From the constructor on, through any operations, the stored
    handle is a value of the signed 64-bit range: what the methods pass as
    handle is always representable in the argument type declared for it. *)
Theorem handle_stays_in_range {W} (lib : Lib W)
    (json_loads : str -> result value) (st : State)
    (path : str) (p : bytes) (ops : list Op) :
  encode_utf8 path = Some p ->
  - 2 ^ 63
  <= _handle (steps lib json_loads ops (snd (__init__ lib path st)))
  < 2 ^ 63.
Proof.
  intros E.
  destruct (steps_handle lib json_loads ops (snd (__init__ lib path st)))
    as [H|H]; rewrite H; [|lia].
  rewrite (init_run lib st path p E). cbn. apply c_longlong_range.
Qed.

Lemma handle_stays_in_range_witness :
  encode_utf8 (py "t.db") = Some (lit "t.db")
  /\ - 2 ^ 63
     <= _handle (steps scripted json_loads_ref [OpDump; OpLastError]
                   (snd (__init__ scripted (py "t.db")
                           (conn 0 [RInt (2 ^ 64 - 3)]))))
     < 2 ^ 63.
Proof.
  assert (E : encode_utf8 (py "t.db") = Some (lit "t.db"))
    by (vm_compute; reflexivity).
  split; [exact E|].
  exact (handle_stays_in_range scripted json_loads_ref
           (conn 0 [RInt (2 ^ 64 - 3)]) (py "t.db") (lit "t.db")
           [OpDump; OpLastError] E).
Defined.

(** X17.  A released handle is never passed to the engine again.  Over any
    sequence of operations on an open connection with handle [h], the calls
    made are: calls on [h] that are not releases; then, if the sequence
    closes the connection, one release of [h]; then only calls on the zero
    handle, none of them a release. *)
Theorem released_handle_never_reused {W} (lib : Lib W)
    (json_loads : str -> result value) (st : State) (ops : list Op) :
  _handle st <> 0 ->
  exists new,
    calls (steps lib json_loads ops st) = calls st ++ new
    /\ released_once (_handle st) new = true.
Proof.
  revert st. induction ops as [|o ops IH]; intros st H.
  - exists []. split; [cbn; rewrite app_nil_r|]; reflexivity.
  - cbn [steps fold_left].
    destruct (step_new_calls lib json_loads st o) as (n1 & E1 & P1).
    pose proof (step_handle lib json_loads st o) as K.
    assert (Z : (_handle st =? 0) = false) by (apply Z.eqb_neq; exact H).
    rewrite Z in P1.
    assert (Closing :
              _handle (step lib json_loads st o) = 0 ->
              n1 = [CallClose (_handle st)] ->
              exists new,
                calls (fold_left (step lib json_loads) ops
                         (step lib json_loads st o)) = calls st ++ new
                /\ released_once (_handle st) new = true).
    { intros H1 ->.
      destruct (steps_after_release lib json_loads ops _ H1)
        as (n2 & E2 & P2).
      exists (CallClose (_handle st) :: n2).
      unfold steps in E2. rewrite E2, E1, <- app_assoc.
      split; [reflexivity|]. cbn. rewrite Z.eqb_refl, P2. reflexivity. }
    assert (Using :
              _handle (step lib json_loads st o) = _handle st ->
              forallb (uses (_handle st)) n1 = true ->
              exists new,
                calls (fold_left (step lib json_loads) ops
                         (step lib json_loads st o)) = calls st ++ new
                /\ released_once (_handle st) new = true).
    { intros H1 P.
      assert (N1 : _handle (step lib json_loads st o) <> 0)
        by (rewrite H1; exact H).
      destruct (IH _ N1) as (n2 & E2 & P2).
      exists (n1 ++ n2). unfold steps in E2. rewrite E2, E1, app_assoc.
      split; [reflexivity|]. rewrite H1 in P2.
      apply released_once_after_uses; assumption. }
    destruct o; try (apply Using; assumption); apply Closing; assumption.
Qed.

Lemma released_handle_never_reused_witness :
  _handle (conn 7 [RPtr None; RInt 0; RPtr None; RInt 0]) <> 0
  /\ exists new,
       calls (steps scripted json_loads_ref
                [OpDump; OpExit; OpLastError; OpClose; OpDel]
                (conn 7 [RPtr None; RInt 0; RPtr None; RInt 0]))
       = [] ++ new
       /\ released_once 7 new = true.
Proof.
  assert (N : _handle (conn 7 [RPtr None; RInt 0; RPtr None; RInt 0]) <> 0)
    by (cbn; discriminate).
  split; [exact N|].
  exact (released_handle_never_reused scripted json_loads_ref
           (conn 7 [RPtr None; RInt 0; RPtr None; RInt 0])
           [OpDump; OpExit; OpLastError; OpClose; OpDel] N).
Defined.
